(** * Affluences reservations: availability compression, slot matching,
      allocation planning and slot generation.

    A shallow embedding of [affluences_reservation.py].

    Conventions of the embedding.
    - A [datetime] is the number of minutes since 1900-01-01 00:00, the day
      [datetime.strptime(x, "%H:%M")] puts its results on; the program only
      builds values with whole minutes.  A [time] is a number of minutes
      after midnight, a [date] a day ordinal, a [timedelta] a number of
      minutes.
    - The ["length"] of a compressed slot is a Python float holding a number
      of hours; it is modelled by a rational in reduced form.  Every value
      the compressor produces is a multiple of 0.5, which floats hold
      exactly.
    - A Python [dict] is an association list in insertion order with unique
      keys: assigning to a key that is present replaces its value in place,
      assigning to a new key appends it. *)

From Stdlib Require Import List ZArith QArith Qreduction String Lia Bool.
From Stdlib Require Import Sorting.Sorted Sorting.Permutation.
From Equations Require Import Equations.
From Equations.Prop Require Import Logic.
Import ListNotations.

Open Scope Z_scope.

(** ** Data model *)

Definition datetime := Z.
Definition time := Z.
Definition date := Z.

(** [x.time()]: the time of day of a datetime. *)
Definition time_of (x : datetime) : time := x mod 1440.

(** [datetime.datetime.combine(day, t)]. *)
Definition combine (day : date) (t : time) : datetime := day * 1440 + t.

(** [d.total_seconds()] of a timedelta of [d] minutes. *)
Definition total_seconds (d : Z) : Q := inject_Z (d * 60).

(** One entry of a resource's ["hours"]: [hour] holds the datetime that
    [strptime(x["hour"], "%H:%M")] yields. *)
Record TimeState := mkTimeState {
  hour : datetime;
  state : string
}.

(** One element of the provider's answer. *)
Record Resource := mkResource {
  resource_id : Z;
  resource_name : string;
  hours : list TimeState
}.

(** A compressed slot: [{"slot": [start, end], "length": l, "resource_name": n}]. *)
Record Interval := mkInterval {
  slot_start : time;
  slot_end : time;
  slot_length : Q;
  interval_name : string
}.

(** ** Dictionaries *)

Definition dict (V : Type) := list (Z * V).

Fixpoint dict_set {V : Type} (d : dict V) (k : Z) (v : V) : dict V :=
  match d with
  | [] => [(k, v)]
  | (k', v') :: rest =>
      if k' =? k then (k, v) :: rest else (k', v') :: dict_set rest k v
  end.

Fixpoint dict_get {V : Type} (d : dict V) (k : Z) : option V :=
  match d with
  | [] => None
  | (k', v) :: rest => if k' =? k then Some v else dict_get rest k
  end.

(** ** Interval Compressor: [compress_availabilities] *)

(** The [filter] and the two [map]s: the parsed hours of the entries whose
    state is ["available"], in the order of the input. *)
Definition available_hours (hours : list TimeState) : list datetime :=
  map hour (filter (fun x => String.eqb (state x) "available") hours).

(** The body of [for slot in available_slots]: [consecutive_slots] is the
    list of runs built so far, the last run being the current one. *)
Definition append_slot (consecutive_slots : list (list datetime))
    (slot : datetime) : list (list datetime) :=
  match consecutive_slots with
  | [] => [[slot]]
  | _ =>
      if slot =? last (last consecutive_slots []) 0 + 30
      then removelast consecutive_slots ++ [last consecutive_slots [] ++ [slot]]
      else consecutive_slots ++ [[slot]]
  end.

Definition split_consecutive (available_slots : list datetime)
    : list (list datetime) :=
  fold_left append_slot available_slots [].

(** The [lambda x] that turns a run into a compressed slot. *)
Definition interval_of (name : string) (x : list datetime) : Interval :=
  {| slot_start := time_of (hd 0 x);
     slot_end := time_of (last x 0);
     slot_length := Qred (total_seconds (last x 0 - hd 0 x) / 60 / 60);
     interval_name := name |}.

(** What one resource contributes: [list(consecutive_slots)]. *)
Definition compress_hours (name : string) (hours : list TimeState)
    : list Interval :=
  map (interval_of name) (split_consecutive (available_hours hours)).

Definition compress_availabilities (available_slots : list Resource)
    : dict (list Interval) :=
  fold_left
    (fun slots resource =>
       dict_set slots (resource_id resource)
         (compress_hours (resource_name resource) (hours resource)))
    available_slots [].

(** ** Slot Matcher: [find_ideal_slot] *)

(** The inner [for slot in slots[resource]]. *)
Fixpoint find_in_resource (today : date) (resource : Z)
    (slots : list Interval) (length : Q) (start_time : datetime)
    : option (Z * Interval) :=
  match slots with
  | [] => None
  | slot :: rest =>
      let slot_start_time := combine today (slot_start slot) in
      if Qle_bool (slot_length slot - (1 # 2)) length
      then find_in_resource today resource rest length start_time
      else if Z.abs (slot_start_time - start_time) >? 30
      then find_in_resource today resource rest length start_time
      else Some (resource, slot)
  end.

(** The outer [for resource in slots]. *)
Fixpoint find_in_resources (today : date) (slots : dict (list Interval))
    (length : Q) (start_time : datetime) : option (Z * Interval) :=
  match slots with
  | [] => None
  | (resource, resource_slots) :: rest =>
      match find_in_resource today resource resource_slots length
              start_time with
      | Some found => Some found
      | None => find_in_resources today rest length start_time
      end
  end.

(** [today] is the day [datetime.datetime.today()] returns during the call. *)
Definition find_ideal_slot (today : date) (slots : dict (list Interval))
    (length : Q) (start_time : time) : option (Z * Interval) :=
  find_in_resources today slots length (combine today start_time).

(** ** Slot Generator: [generate_slots] *)

Inductive ReservationType := FULL_DAY | ONLY_MORNING | ONLY_AFTERNOON.

Definition ReservationType_eqb (a b : ReservationType) : bool :=
  match a, b with
  | FULL_DAY, FULL_DAY => true
  | ONLY_MORNING, ONLY_MORNING => true
  | ONLY_AFTERNOON, ONLY_AFTERNOON => true
  | _, _ => false
  end.

(** A requested booking: [{"slot": [start, duration], "date": day}]. *)
Record DesiredSlot := mkDesiredSlot {
  desired_start : time;
  desired_duration : Z;
  desired_date : date
}.

(** [datetime.time(h, m)]. *)
Definition mktime (h m : Z) : time := h * 60 + m.

(** [range(n)]: empty when [n] is not positive. *)
Definition range (n : Z) : list Z := map Z.of_nat (seq 0 (Z.to_nat n)).

(** The body of [for i in range(delta.days + 1)]. *)
Definition generate_day (start_date : date) (reservation_type : ReservationType)
    (slot_duration : Z) (slots : list DesiredSlot) (i : Z) : list DesiredSlot :=
  let day := start_date + i in
  let slots :=
    if ReservationType_eqb reservation_type FULL_DAY
       || ReservationType_eqb reservation_type ONLY_MORNING
    then slots ++ [mkDesiredSlot (mktime 9 0) slot_duration day]
    else slots in
  if ReservationType_eqb reservation_type FULL_DAY
     || ReservationType_eqb reservation_type ONLY_AFTERNOON
  then slots ++ [mkDesiredSlot (mktime 14 0) slot_duration day]
  else slots.

(** [now] is the day [datetime.datetime.now().date()] returns during the
    call. *)
Definition generate_slots (now : date) (start_date end_date : date)
    (reservation_type : ReservationType) (slot_duration : Z)
    : list DesiredSlot :=
  let one_week_from_now := now + 7 in
  let end_date :=
    if end_date >? one_week_from_now then one_week_from_now else end_date in
  let delta_days := end_date - start_date in
  fold_left (generate_day start_date reservation_type slot_duration)
    (range (delta_days + 1)) [].

(** ** Allocation Planner: [construct_reservations] *)

(** One element of [get_resources]'s answer. *)
Record ResourceType := mkResourceType {
  type_name : string;
  type_id : Z
}.

Record Reservation := mkReservation {
  reservation_resource_id : Z;
  reservation_resource_type : string;
  reservation_resource_name : string;
  reservation_start_time : time;
  reservation_duration : Z;
  reservation_date : date
}.

(** A call [get_available_slots(library_id, resource, day, _)]. *)
Record Query := mkQuery {
  query_resource : Z;
  query_date : date
}.

(** What a run leaves behind: the list it returns, the caller's [slots]
    list as the run has mutated it, whether the two warnings were logged,
    and the provider calls it made, in order. *)
Record Outcome := mkOutcome {
  reservations : list Reservation;
  pending : list DesiredSlot;
  warned : bool;
  queries : list Query
}.

(** [==] on the dictionaries that represent desired slots. *)
Definition DesiredSlot_eqb (a b : DesiredSlot) : bool :=
  (desired_start a =? desired_start b)
  && (desired_duration a =? desired_duration b)
  && (desired_date a =? desired_date b).

(** [slots.remove(slot)]: drops the first element equal to [slot].  The
    planner only removes an element it has just read from the list, so the
    [ValueError] of an absent element does not arise (see
    [iterate_slots_removes_member]). *)
Fixpoint list_remove (slot : DesiredSlot) (slots : list DesiredSlot)
    : list DesiredSlot :=
  match slots with
  | [] => []
  | x :: rest =>
      if DesiredSlot_eqb x slot then rest else x :: list_remove slot rest
  end.

(** The first two loops: the ids of the preferred names, in preference
    order. *)
Definition resolve_preferences (resourses : list ResourceType)
    (resourse_preference : list string) : list (Z * string) :=
  flat_map
    (fun resource =>
       flat_map
         (fun res =>
            if String.eqb (type_name res) resource
            then [(type_id res, type_name res)]
            else [])
         resourses)
    resourse_preference.

Section Planner.

(** The day the clock shows, and the provider: what
    [get_available_slots] answers for a resource type and a day. *)
Variable today : date.
Variable provider : Z -> date -> list Resource.

(** What the planner computes for one slot against one resource type. *)
Definition ideal_for (resource : Z) (slot : DesiredSlot)
    : option (Z * Interval) :=
  let avalable_slots := provider resource (desired_date slot) in
  let compressed_slots := compress_availabilities avalable_slots in
  find_ideal_slot today compressed_slots
    (inject_Z (desired_duration slot)) (desired_start slot).

Definition reservation_for (name : string) (slot : DesiredSlot)
    (ideal : Z * Interval) : Reservation :=
  {| reservation_resource_id := fst ideal;
     reservation_resource_type := name;
     reservation_resource_name := interval_name (snd ideal);
     reservation_start_time := desired_start slot;
     reservation_duration := desired_duration slot;
     reservation_date := desired_date slot |}.

(** [for slot in slots] over the list the body mutates.  Python's list
    iterator holds an index [i]: each step reads [slots[i]] from the list
    as it is then, and stops once [i] reaches its current length. *)
Equations iterate_slots (resource : Z) (name : string) (i : nat)
    (slots : list DesiredSlot) (found : list Reservation)
    (asked : list Query)
    : list DesiredSlot * list Reservation * list Query
    by wf (List.length slots - i)%nat lt :=
  iterate_slots resource name i slots found asked with
      inspect (nth_error slots i) := {
    | exist _ None _ => (slots, found, asked)
    | exist _ (Some slot) Hslot with
          inspect (ideal_for resource slot) := {
        | exist _ (Some ideal) _ =>
            iterate_slots resource name (S i) (list_remove slot slots)
              (found ++ [reservation_for name slot ideal])
              (asked ++ [mkQuery resource (desired_date slot)])
        | exist _ None _ =>
            iterate_slots resource name (S i) slots found
              (asked ++ [mkQuery resource (desired_date slot)]) } }.
Next Obligation.
  assert (i < List.length slots)%nat
    by (apply nth_error_Some; congruence).
  assert (List.length (list_remove slot slots) <= List.length slots)%nat.
  { clear. induction slots as [|x rest IH]; simpl; [lia|].
    destruct (DesiredSlot_eqb x slot); simpl; lia. }
  lia.
Qed.
Next Obligation.
  assert (i < List.length slots)%nat
    by (apply nth_error_Some; congruence).
  lia.
Qed.

(** [for resource, name in resource_ids], with its [break]. *)
Fixpoint iterate_resources (resource_ids : list (Z * string))
    (slots : list DesiredSlot) (found : list Reservation)
    (asked : list Query)
    : list DesiredSlot * list Reservation * list Query :=
  match resource_ids with
  | [] => (slots, found, asked)
  | (resource, name) :: rest =>
      let '(slots, found, asked) :=
        iterate_slots resource name 0 slots found asked in
      if (List.length slots =? 0)%nat
      then (slots, found, asked)
      else iterate_resources rest slots found asked
  end.

(** [resourses] is what [get_resources(get_info(library_id, _))]
    returns. *)
Definition construct_reservations (resourses : list ResourceType)
    (resourse_preference : list string) (slots : list DesiredSlot)
    : Outcome :=
  let resource_ids := resolve_preferences resourses resourse_preference in
  let '(slots, found, asked) :=
    iterate_resources resource_ids slots [] [] in
  {| reservations := found;
     pending := slots;
     warned := (0 <? List.length slots)%nat;
     queries := asked |}.

End Planner.

(** ** Notions used to state the properties *)

(** The two constraints of the matcher, as the specification words them:
    the length less half an hour exceeds the desired duration, and the
    start lies within 30 minutes of the desired start. *)
Definition qualifies (d : Q) (s : time) (iv : Interval) : Prop :=
  (d < slot_length iv - (1 # 2))%Q /\ Z.abs (slot_start iv - s) <= 30.

Definition qualifiesb (d : Q) (s : time) (iv : Interval) : bool :=
  negb (Qle_bool (slot_length iv - (1 # 2)) d)
  && negb (Z.abs (slot_start iv - s) >? 30).

(** The order the matcher scans a mapping in: resources in the mapping's
    order, the intervals of one resource in list order. *)
Definition scan_order (slots : dict (list Interval)) : list (Z * Interval) :=
  flat_map (fun entry => map (pair (fst entry)) (snd entry)) slots.

(** [n] hours spaced 30 minutes apart, from [t] on. *)
Fixpoint half_hours (t : datetime) (n : nat) : list datetime :=
  match n with
  | O => []
  | S k => t :: half_hours (t + 30) k
  end.

(** The interval that spans the [n + 1] entries 30 minutes apart that
    start at [t]. *)
Definition spanning (name : string) (t : datetime) (n : nat) : Interval :=
  {| slot_start := time_of t;
     slot_end := time_of (t + 30 * Z.of_nat n);
     slot_length := Qred (inject_Z (Z.of_nat n) * (1 # 2));
     interval_name := name |}.

(** The runs the compressor's loop ends with when it has [current] as its
    current run, [previous] being the last member of that run, and still
    has [l] to read. *)
Fixpoint runs_from (current : list datetime) (previous : datetime)
    (l : list datetime) : list (list datetime) :=
  match l with
  | [] => [current]
  | x :: rest =>
      if x =? previous + 30
      then runs_from (current ++ [x]) x rest
      else current :: runs_from [x] x rest
  end.

(** Sorting entries by time of day, stably. *)
Fixpoint insert_by_hour (x : TimeState) (l : list TimeState)
    : list TimeState :=
  match l with
  | [] => [x]
  | y :: rest =>
      if hour x <=? hour y then x :: l else y :: insert_by_hour x rest
  end.

Definition sort_by_hour (l : list TimeState) : list TimeState :=
  fold_right insert_by_hour [] l.

Definition hour_le (a b : TimeState) : Prop := hour a <= hour b.

(** A resource with its entries rearranged by [f]. *)
Definition with_hours (f : list TimeState -> list TimeState)
    (resource : Resource) : Resource :=
  {| resource_id := resource_id resource;
     resource_name := resource_name resource;
     hours := f (hours resource) |}.

(** What the generator emits for one day: the morning slot under
    [FULL_DAY] and [ONLY_MORNING], then the afternoon slot under [FULL_DAY]
    and [ONLY_AFTERNOON]. *)
Definition emitted (reservation_type : ReservationType) (slot_duration : Z)
    (day : date) : list DesiredSlot :=
  match reservation_type with
  | FULL_DAY | ONLY_MORNING => [mkDesiredSlot (mktime 9 0) slot_duration day]
  | ONLY_AFTERNOON => []
  end
  ++ match reservation_type with
     | FULL_DAY | ONLY_AFTERNOON =>
         [mkDesiredSlot (mktime 14 0) slot_duration day]
     | ONLY_MORNING => []
     end.

(** A desired slot that lies before another: on an earlier day, or on the
    same day at an earlier time. *)
Definition earlier (a b : DesiredSlot) : Prop :=
  desired_date a < desired_date b
  \/ (desired_date a = desired_date b /\ desired_start a < desired_start b).

(** The desired slot a reservation was made for. *)
Definition reserved_slot (r : Reservation) : DesiredSlot :=
  mkDesiredSlot (reservation_start_time r) (reservation_duration r)
    (reservation_date r).

(** ** Resource listing: [get_resources] *)

(** One element of [info_json["types"]]. *)
Record TypeInfo := mkTypeInfo {
  localized_description : string;
  resource_type : Z
}.

(** [types] is [info_json["types"]]. *)
Definition get_resources (types : list TypeInfo) : list ResourceType :=
  fold_left
    (fun resources_list resource =>
       resources_list
       ++ [{| type_name := localized_description resource;
              type_id := resource_type resource |}])
    types [].

(** ** Reservation Submitter: [make_reservations] *)

(** The JSON payload of one request; [payload_date], [payload_start_time]
    and [payload_end_time] hold the values the code turns into strings
    with [str]. *)
Record Payload := mkPayload {
  payload_auth_type : option string;
  payload_date : date;
  payload_email : string;
  payload_start_time : time;
  payload_end_time : time;
  payload_note : option string;
  payload_user_firstname : option string;
  payload_user_lastname : option string;
  payload_user_phone : option string;
  payload_person_count : Z
}.

(** What the service answers: the status code, and the body as
    [response.json()] decodes it, [None] when the body is not JSON and
    [response.json()] raises. *)
Record Response := mkResponse {
  status_code : Z;
  json_body : option string
}.

(** What a run of [make_reservations] does to the outside: the requests it
    posts, the errors it logs and the pauses it takes. *)
Inductive Event :=
| Posted (resource : Z) (payload : Payload)
| ErrorLogged (body : string)
| Slept (seconds : Z).

(** How a run ends: it returns, or an exception leaves the loop. *)
Inductive Ending := Returned | RequestRaised | BodyNotJson.

(** [timedelta(hours=h)], in minutes. *)
Definition hours_delta (h : Z) : Z := h * 60.

Definition payload_of (email : string)
    (first_name last_name phone_number : option string)
    (reservation : Reservation) : Payload :=
  let end_time :=
    combine (reservation_date reservation)
      (reservation_start_time reservation)
    + hours_delta (reservation_duration reservation) in
  {| payload_auth_type := None;
     payload_date := reservation_date reservation;
     payload_email := email;
     payload_start_time := reservation_start_time reservation;
     payload_end_time := time_of end_time;
     payload_note := None;
     payload_user_firstname := first_name;
     payload_user_lastname := last_name;
     payload_user_phone := phone_number;
     payload_person_count := 1 |}.

Section Submitter.

(** The service: what the [n]-th call of [requests.post] of the run
    answers for a resource id and a payload, [None] when the call raises
    (a timeout, a refused connection). *)
Variable post : nat -> Z -> Payload -> option Response.

Variable email : string.
Variables first_name last_name phone_number : option string.

(** [for reservation in reservations], [n] requests having been posted
    before. *)
Fixpoint submit (n : nat) (reservations : list Reservation)
    (events : list Event) : list Event * Ending :=
  match reservations with
  | [] => (events, Returned)
  | reservation :: rest =>
      let payload :=
        payload_of email first_name last_name phone_number reservation in
      let resource := reservation_resource_id reservation in
      let events := events ++ [Posted resource payload] in
      match post n resource payload with
      | None => (events, RequestRaised)
      | Some response =>
          if status_code response =? 200
          then submit (S n) rest (events ++ [Slept 5])
          else
            match json_body response with
            | None => (events, BodyNotJson)
            | Some body =>
                submit (S n) rest (events ++ [ErrorLogged body; Slept 5])
            end
      end
  end.

Definition make_reservations (reservations : list Reservation)
    : list Event * Ending :=
  submit 0 reservations [].

End Submitter.

(** The requests among the events of a run. *)
Definition posted (events : list Event) : list (Z * Payload) :=
  flat_map
    (fun event =>
       match event with
       | Posted resource payload => [(resource, payload)]
       | _ => []
       end)
    events.

(** The seconds a run has paused for. *)
Definition slept (events : list Event) : Z :=
  fold_right
    (fun event total =>
       match event with
       | Slept seconds => seconds + total
       | _ => total
       end)
    0 events.

(** A time of day as [strptime] yields it. *)
Definition in_day (t : datetime) : Prop := 0 <= t < 1440.

(** The elements at the even positions 0, 2, 4, ... of a list, and those at
    the odd positions. *)
Fixpoint evens {A : Type} (l : list A) : list A :=
  match l with
  | [] => []
  | x :: rest =>
      x :: match rest with
           | [] => []
           | _ :: rest' => evens rest'
           end
  end.

Definition odds {A : Type} (l : list A) : list A :=
  match l with
  | [] => []
  | _ :: rest => evens rest
  end.

(** The reservation a pass makes for a slot, if the resource type can host
    it. *)
Definition reserve (today : date) (provider : Z -> date -> list Resource)
    (resource : Z) (name : string) (slot : DesiredSlot)
    : list Reservation :=
  match ideal_for today provider resource slot with
  | Some ideal => [reservation_for name slot ideal]
  | None => []
  end.

(** What a day contributes: two slots under [FULL_DAY], one otherwise. *)
Definition slots_per_day (reservation_type : ReservationType) : nat :=
  match reservation_type with
  | FULL_DAY => 2
  | ONLY_MORNING | ONLY_AFTERNOON => 1
  end.

(** The request [make_reservations] posts for a reservation: the resource
    id that ends the URL, and the payload. *)
Definition request_of (email : string)
    (first_name last_name phone_number : option string)
    (reservation : Reservation) : Z * Payload :=
  (reservation_resource_id reservation,
   payload_of email first_name last_name phone_number reservation).

(** ** The Slot Matcher *)

Lemma combine_diff (today : date) (a b : time) :
  combine today a - combine today b = a - b.
Proof. unfold combine. ring. Qed.

Lemma qualifiesb_iff (d : Q) (s : time) (iv : Interval) :
  qualifiesb d s iv = true <-> qualifies d s iv.
Proof.
  unfold qualifiesb, qualifies.
  rewrite andb_true_iff, !negb_true_iff.
  rewrite <- !not_true_iff_false, Qle_bool_iff, Z.gtb_gt.
  split; intros [Hlen Hstart]; split.
  - apply Qnot_le_lt. exact Hlen.
  - lia.
  - apply Qlt_not_le. exact Hlen.
  - lia.
Qed.

Lemma qualifiesb_false_iff (d : Q) (s : time) (iv : Interval) :
  qualifiesb d s iv = false <-> ~ qualifies d s iv.
Proof.
  rewrite <- qualifiesb_iff. destruct (qualifiesb d s iv); split; congruence.
Qed.

Lemma find_in_resource_find (today : date) (resource : Z)
    (slots : list Interval) (d : Q) (s : time) :
  find_in_resource today resource slots d (combine today s)
  = find (fun p => qualifiesb d s (snd p)) (map (pair resource) slots).
Proof.
  induction slots as [|slot rest IH]; simpl; [reflexivity|].
  unfold qualifiesb at 1. rewrite combine_diff.
  destruct (Qle_bool (slot_length slot - (1 # 2)) d); simpl; [exact IH|].
  destruct (Z.abs (slot_start slot - s) >? 30); simpl; [exact IH|reflexivity].
Qed.

Lemma find_app_first {A : Type} (f : A -> bool) (l1 l2 : list A) :
  find f (l1 ++ l2)
  = match find f l1 with Some x => Some x | None => find f l2 end.
Proof.
  induction l1 as [|x l1 IH]; simpl; [reflexivity|].
  destruct (f x); [reflexivity|exact IH].
Qed.

Lemma find_ideal_slot_find (today : date) (slots : dict (list Interval))
    (d : Q) (s : time) :
  find_ideal_slot today slots d s
  = find (fun p => qualifiesb d s (snd p)) (scan_order slots).
Proof.
  unfold find_ideal_slot, scan_order.
  induction slots as [|[resource resource_slots] rest IH]; simpl;
    [reflexivity|].
  rewrite find_app_first, find_in_resource_find, IH. reflexivity.
Qed.

Lemma find_first {A : Type} (f : A -> bool) (l : list A) (x : A) :
  find f l = Some x <->
  exists pre post,
    l = pre ++ x :: post /\ Forall (fun y => f y = false) pre /\ f x = true.
Proof.
  split.
  - induction l as [|y l IH]; simpl; [discriminate|].
    destruct (f y) eqn:Hy.
    + intros [= ->]. exists [], l. repeat split; auto.
    + intros Hfind. destruct (IH Hfind) as (pre & post & -> & Hpre & Hx).
      exists (y :: pre), post. repeat split; auto.
  - intros (pre & post & -> & Hpre & Hx).
    induction Hpre as [|y pre Hy _ IH]; simpl.
    + rewrite Hx. reflexivity.
    + rewrite Hy. exact IH.
Qed.

Lemma find_none {A : Type} (f : A -> bool) (l : list A) :
  find f l = None <-> Forall (fun y => f y = false) l.
Proof.
  induction l as [|y l IH]; simpl.
  - split; auto.
  - destruct (f y) eqn:Hy.
    + split; [discriminate|]. intros H. inversion H. congruence.
    + rewrite IH. split; [auto|]. intros H. inversion H. assumption.
Qed.

Lemma Forall_not_qualifies (d : Q) (s : time) (l : list (Z * Interval)) :
  Forall (fun p => qualifiesb d s (snd p) = false) l
  <-> Forall (fun p => ~ qualifies d s (snd p)) l.
Proof.
  split; intros H; eapply Forall_impl; try exact H;
    intros p; apply qualifiesb_false_iff.
Qed.

(** C1.  [find_ideal_slot] is first-fit: it returns [(r, iv)] exactly when
    [(r, iv)] is the first pair of the scan order whose interval satisfies
    both [slot_length iv - 0.5 > d] and [|slot_start iv - s| <= 30], and it
    returns nothing exactly when no interval of any resource satisfies
    both. *)
Theorem find_ideal_slot_first_fit (today : date)
    (slots : dict (list Interval)) (d : Q) (s : time) :
  (forall r iv,
     find_ideal_slot today slots d s = Some (r, iv) <->
     exists pre post,
       scan_order slots = pre ++ (r, iv) :: post
       /\ Forall (fun p => ~ qualifies d s (snd p)) pre
       /\ qualifies d s iv)
  /\ (find_ideal_slot today slots d s = None <->
      Forall (fun p => ~ qualifies d s (snd p)) (scan_order slots)).
Proof.
  rewrite find_ideal_slot_find. split.
  - intros r iv. rewrite find_first. simpl.
    split; intros (pre & post & Hscan & Hpre & Hiv); exists pre, post;
      (split; [exact Hscan|split]).
    + apply (proj1 (Forall_not_qualifies d s pre) Hpre).
    + apply (proj1 (qualifiesb_iff d s iv) Hiv).
    + apply (proj2 (Forall_not_qualifies d s pre) Hpre).
    + apply (proj2 (qualifiesb_iff d s iv) Hiv).
  - rewrite find_none. apply Forall_not_qualifies.
Qed.

(** Every pair the matcher returns satisfies both constraints. *)
Lemma find_ideal_slot_qualifies (today : date) (slots : dict (list Interval))
    (d : Q) (s : time) (r : Z) (iv : Interval) :
  find_ideal_slot today slots d s = Some (r, iv) -> qualifies d s iv.
Proof.
  rewrite find_ideal_slot_find. intros Hfind.
  apply find_some in Hfind. apply qualifiesb_iff. exact (proj2 Hfind).
Qed.

(** The matcher on a mapping that holds one interval. *)
Lemma find_ideal_slot_single (today : date) (r : Z) (iv : Interval)
    (d : Q) (s : time) :
  find_ideal_slot today [(r, [iv])] d s
  = if qualifiesb d s iv then Some (r, iv) else None.
Proof. rewrite find_ideal_slot_find. reflexivity. Qed.

(** C5, as the code has it.  Among intervals that start within 30 minutes
    of the desired start, the matcher accepts exactly those whose length
    less 0.5 hours strictly exceeds the desired duration, and rejects all
    others; so 4 hours against a length of exactly 4.5 hours is rejected. *)
Theorem length_tolerance_strict (today : date) (r : Z) (iv : Interval)
    (d : Q) (s : time) :
  Z.abs (slot_start iv - s) <= 30 ->
  (find_ideal_slot today [(r, [iv])] d s = Some (r, iv)
   <-> (d < slot_length iv - (1 # 2))%Q)
  /\ (find_ideal_slot today [(r, [iv])] d s = None
      <-> ~ (d < slot_length iv - (1 # 2))%Q).
Proof.
  intros Hstart. rewrite find_ideal_slot_single.
  destruct (qualifiesb d s iv) eqn:Hq.
  - apply qualifiesb_iff in Hq. destruct Hq as [Hlen _].
    repeat split; auto; try discriminate. intros Hn. contradiction.
  - apply qualifiesb_false_iff in Hq.
    assert (Hlen : ~ (d < slot_length iv - (1 # 2))%Q).
    { intros Hlen. apply Hq. split; assumption. }
    repeat split; auto; try discriminate. intros Hn. contradiction.
Qed.

(** C10.  The start-time tolerance includes its boundary: an interval that
    starts exactly 30 minutes from the desired start, passes the length
    check and is preceded in the scan order only by intervals that do not
    qualify is returned; an interval that starts more than 30 minutes from
    the desired start is never returned. *)
Theorem start_tolerance_inclusive (today : date)
    (slots : dict (list Interval)) (d : Q) (s : time) (r : Z)
    (iv : Interval) :
  (forall pre post,
     scan_order slots = pre ++ (r, iv) :: post ->
     Forall (fun p => ~ qualifies d s (snd p)) pre ->
     Z.abs (slot_start iv - s) = 30 ->
     (d < slot_length iv - (1 # 2))%Q ->
     find_ideal_slot today slots d s = Some (r, iv))
  /\ (30 < Z.abs (slot_start iv - s) ->
      find_ideal_slot today slots d s <> Some (r, iv)).
Proof.
  split.
  - intros pre post Hscan Hpre Hstart Hlen.
    rewrite find_ideal_slot_find. apply find_first.
    exists pre, post. split; [exact Hscan|split].
    + apply (proj2 (Forall_not_qualifies d s pre) Hpre).
    + apply (proj2 (qualifiesb_iff d s iv)). split; [exact Hlen|].
      rewrite Hstart. discriminate.
  - intros Hfar Hfind. apply find_ideal_slot_qualifies in Hfind.
    destruct Hfind as [_ Hnear]. unfold time in *. lia.
Qed.

(** C5, as the specification words it, fails: at a desired duration of 4
    hours, an interval of length exactly 4.5 hours that starts at the
    desired start has [slot_length - 0.5 > 4] false and is not matched. *)
Lemma length_tolerance_4h30_rejected :
  let iv := mkInterval (mktime 9 0) (mktime 13 30) (9 # 2) "seat" in
  ~ (inject_Z 4 < slot_length iv - (1 # 2))%Q
  /\ Z.abs (slot_start iv - mktime 9 0) <= 30
  /\ find_ideal_slot 0 [(1, [iv])] (inject_Z 4) (mktime 9 0) = None.
Proof.
  simpl. split; [|split].
  - intros H. vm_compute in H. discriminate.
  - vm_compute. discriminate.
  - reflexivity.
Qed.

Lemma length_tolerance_strict_witness :
  find_ideal_slot 0
    [(1, [mkInterval (mktime 9 0) (mktime 13 30) (9 # 2) "seat"])]
    (inject_Z 4) (mktime 9 0) = None
  /\ find_ideal_slot 0
       [(1, [mkInterval (mktime 9 0) (mktime 14 0) 5 "seat"])]
       (inject_Z 4) (mktime 9 0)
     = Some (1, mkInterval (mktime 9 0) (mktime 14 0) 5 "seat").
Proof.
  split.
  - apply (proj2 (length_tolerance_strict 0 1
             (mkInterval (mktime 9 0) (mktime 13 30) (9 # 2) "seat")
             (inject_Z 4) (mktime 9 0)
             ltac:(vm_compute; discriminate))).
    intros H. vm_compute in H. discriminate.
  - apply (proj1 (length_tolerance_strict 0 1
             (mkInterval (mktime 9 0) (mktime 14 0) 5 "seat")
             (inject_Z 4) (mktime 9 0)
             ltac:(vm_compute; discriminate))).
    reflexivity.
Defined.

Lemma start_tolerance_inclusive_witness :
  find_ideal_slot 0
    [(1, [mkInterval (mktime 9 30) (mktime 14 30) 5 "seat"])]
    (inject_Z 4) (mktime 9 0)
  = Some (1, mkInterval (mktime 9 30) (mktime 14 30) 5 "seat")
  /\ find_ideal_slot 0
       [(1, [mkInterval (mktime 9 31) (mktime 14 31) 5 "seat"])]
       (inject_Z 4) (mktime 9 0)
     <> Some (1, mkInterval (mktime 9 31) (mktime 14 31) 5 "seat").
Proof.
  split.
  - apply (proj1 (start_tolerance_inclusive 0
             [(1, [mkInterval (mktime 9 30) (mktime 14 30) 5 "seat"])]
             (inject_Z 4) (mktime 9 0) 1
             (mkInterval (mktime 9 30) (mktime 14 30) 5 "seat")) [] []).
    + reflexivity.
    + constructor.
    + reflexivity.
    + reflexivity.
  - apply (proj2 (start_tolerance_inclusive 0
             [(1, [mkInterval (mktime 9 31) (mktime 14 31) 5 "seat"])]
             (inject_Z 4) (mktime 9 0) 1
             (mkInterval (mktime 9 31) (mktime 14 31) 5 "seat"))).
    reflexivity.
Defined.

(** ** The Interval Compressor *)

Lemma half_hours_snoc (t : datetime) (n : nat) :
  half_hours t n ++ [t + 30 * Z.of_nat n] = half_hours t (S n).
Proof.
  revert t. induction n as [|n IH]; intros t.
  - simpl. f_equal. lia.
  - change (half_hours t (S n)) with (t :: half_hours (t + 30) n).
    change (half_hours t (S (S n))) with (t :: half_hours (t + 30) (S n)).
    simpl app. f_equal. rewrite <- IH. do 2 f_equal. lia.
Qed.

Lemma half_hours_last (t : datetime) (n : nat) :
  last (half_hours t (S n)) 0 = t + 30 * Z.of_nat n.
Proof. rewrite <- half_hours_snoc. apply last_last. Qed.

Lemma append_slot_snoc (consecutive_slots : list (list datetime))
    (current : list datetime) (slot : datetime) :
  append_slot (consecutive_slots ++ [current]) slot
  = if slot =? last current 0 + 30
    then consecutive_slots ++ [current ++ [slot]]
    else (consecutive_slots ++ [current]) ++ [[slot]].
Proof.
  unfold append_slot.
  destruct (consecutive_slots ++ [current]) eqn:Hruns.
  - destruct consecutive_slots; discriminate.
  - rewrite <- Hruns, last_last, removelast_last. reflexivity.
Qed.

(** The loop of the compressor, started on a list of runs whose last run
    is not empty, ends with the runs [runs_from] lists. *)
Lemma fold_append_slot (l : list datetime) :
  forall (consecutive_slots : list (list datetime))
         (current : list datetime) (previous : datetime),
    last current 0 = previous ->
    fold_left append_slot l (consecutive_slots ++ [current])
    = consecutive_slots ++ runs_from current previous l.
Proof.
  induction l as [|x l IH]; intros runs current previous Hlast; simpl.
  - reflexivity.
  - rewrite append_slot_snoc, Hlast. destruct (x =? previous + 30).
    + apply IH. apply last_last.
    + rewrite (IH (runs ++ [current]) [x] x eq_refl).
      rewrite <- app_assoc. reflexivity.
Qed.

Lemma split_consecutive_cons (t : datetime) (l : list datetime) :
  split_consecutive (t :: l) = runs_from [t] t l.
Proof.
  unfold split_consecutive. simpl.
  apply (fold_append_slot l [] [t] t eq_refl).
Qed.

Lemma runs_from_half_hours (n : nat) :
  forall (current : list datetime) (previous : datetime)
         (l : list datetime),
    runs_from current previous (half_hours (previous + 30) n ++ l)
    = runs_from (current ++ half_hours (previous + 30) n)
        (previous + 30 * Z.of_nat n) l.
Proof.
  induction n as [|n IH]; intros current previous l.
  - simpl. rewrite app_nil_r. f_equal. lia.
  - simpl half_hours. simpl app. simpl runs_from.
    rewrite Z.eqb_refl, IH, <- app_assoc. simpl app. f_equal. lia.
Qed.

Lemma runs_from_half_hours_end (n : nat) (current : list datetime)
    (previous : datetime) :
  runs_from current previous (half_hours (previous + 30) n)
  = [current ++ half_hours (previous + 30) n].
Proof.
  rewrite <- (app_nil_r (half_hours (previous + 30) n)) at 1.
  rewrite runs_from_half_hours. reflexivity.
Qed.

Lemma runs_from_cons (current : list datetime) (previous x : datetime)
    (rest : list datetime) :
  runs_from current previous (x :: rest)
  = if x =? previous + 30
    then runs_from (current ++ [x]) x rest
    else current :: runs_from [x] x rest.
Proof. reflexivity. Qed.

Lemma half_hours_S (t : datetime) (n : nat) :
  half_hours t (S n) = t :: half_hours (t + 30) n.
Proof. reflexivity. Qed.

(** A gap-free sequence is one run. *)
Lemma split_consecutive_half_hours (t : datetime) (n : nat) :
  split_consecutive (half_hours t (S n)) = [half_hours t (S n)].
Proof.
  rewrite half_hours_S, split_consecutive_cons.
  apply runs_from_half_hours_end.
Qed.

(** Two gap-free sequences that do not follow each other at 30 minutes
    are two runs. *)
Lemma split_consecutive_two_runs (t u : datetime) (n m : nat) :
  u <> t + 30 * Z.of_nat n + 30 ->
  split_consecutive (half_hours t (S n) ++ half_hours u (S m))
  = [half_hours t (S n); half_hours u (S m)].
Proof.
  intros Hgap. rewrite !half_hours_S, <- app_comm_cons.
  rewrite split_consecutive_cons, runs_from_half_hours, runs_from_cons.
  destruct (Z.eqb_spec u (t + 30 * Z.of_nat n + 30)) as [Heq|_];
    [contradiction|].
  rewrite runs_from_half_hours_end. reflexivity.
Qed.

Lemma runs_from_concat (l : list datetime) :
  forall (current : list datetime) (previous : datetime),
    List.concat (runs_from current previous l) = current ++ l.
Proof.
  induction l as [|x l IH]; intros current previous.
  - simpl. reflexivity.
  - rewrite runs_from_cons. destruct (x =? previous + 30).
    + rewrite IH, <- app_assoc. reflexivity.
    + simpl. rewrite IH. reflexivity.
Qed.

(** The runs hold exactly the hours given, in the order given. *)
Lemma split_consecutive_concat (l : list datetime) :
  List.concat (split_consecutive l) = l.
Proof.
  destruct l as [|t l]; [reflexivity|].
  rewrite split_consecutive_cons. apply runs_from_concat.
Qed.

Lemma runs_from_last (l : list datetime) :
  forall (current : list datetime) (previous : datetime),
    last current 0 = previous ->
    runs_from current previous l <> []
    /\ last (last (runs_from current previous l) []) 0
       = last (previous :: l) 0.
Proof.
  induction l as [|x l IH]; intros current previous Hlast.
  - simpl. split; [discriminate|exact Hlast].
  - rewrite runs_from_cons. destruct (x =? previous + 30).
    + destruct (IH (current ++ [x]) x (last_last _ _ _)) as [Hne Heq].
      split; [exact Hne|]. rewrite Heq. reflexivity.
    + destruct (IH [x] x eq_refl) as [Hne Heq].
      split; [discriminate|].
      change (last (last (current :: runs_from [x] x l) []) 0
              = last (x :: l) 0).
      destruct (runs_from [x] x l) eqn:Hruns; [contradiction|].
      exact Heq.
Qed.

(** One step of the merge: a further hour [x] extends the current run
    exactly when it is 30 minutes after the hour read before it, and
    starts a run of its own otherwise. *)
Lemma split_consecutive_snoc (ts : list datetime) (x : datetime) :
  ts <> [] ->
  split_consecutive (ts ++ [x])
  = if x =? last ts 0 + 30
    then removelast (split_consecutive ts)
           ++ [last (split_consecutive ts) [] ++ [x]]
    else split_consecutive ts ++ [[x]].
Proof.
  intros Hts. destruct ts as [|t ts]; [contradiction|].
  unfold split_consecutive at 1. rewrite fold_left_app.
  fold (split_consecutive (t :: ts)). simpl fold_left.
  destruct (runs_from_last ts [t] t eq_refl) as [Hne Hlast].
  rewrite <- split_consecutive_cons in Hne, Hlast.
  unfold append_slot.
  destruct (split_consecutive (t :: ts)) eqn:Hruns; [contradiction|].
  rewrite Hlast. reflexivity.
Qed.

(** Every run is a sequence of hours 30 minutes apart. *)
Lemma runs_from_shape (l : list datetime) :
  forall (t : datetime) (k : nat),
    Forall (fun run => exists t' n, run = half_hours t' (S n))
      (runs_from (half_hours t (S k)) (t + 30 * Z.of_nat k) l).
Proof.
  induction l as [|x l IH]; intros t k.
  - simpl. constructor; [|constructor]. exists t, k. reflexivity.
  - rewrite runs_from_cons.
    destruct (Z.eqb_spec x (t + 30 * Z.of_nat k + 30)) as [->|_].
    + replace (t + 30 * Z.of_nat k + 30) with (t + 30 * Z.of_nat (S k))
        by lia.
      rewrite half_hours_snoc. apply IH.
    + constructor; [exists t, k; reflexivity|].
      replace x with (x + 30 * Z.of_nat 0) at 2 by lia.
      apply (IH x 0%nat).
Qed.

Lemma split_consecutive_shape (l : list datetime) :
  Forall (fun run => exists t n, run = half_hours t (S n))
    (split_consecutive l).
Proof.
  destruct l as [|t l]; [constructor|].
  rewrite split_consecutive_cons.
  replace t with (t + 30 * Z.of_nat 0) at 2 by lia.
  apply (runs_from_shape l t 0%nat).
Qed.

Lemma half_hour_count_hours (t : datetime) (n : nat) :
  (total_seconds (t + 30 * Z.of_nat n - t) / 60 / 60
   == inject_Z (Z.of_nat n) * (1 # 2))%Q.
Proof.
  unfold total_seconds.
  replace (t + 30 * Z.of_nat n - t) with (30 * Z.of_nat n) by lia.
  generalize (Z.of_nat n). intros k.
  unfold Qeq, Qdiv, Qmult, Qinv, inject_Z. cbn -[Z.mul]. lia.
Qed.

(** The compressed slot of a run of [n + 1] hours 30 minutes apart. *)
Lemma interval_of_half_hours (name : string) (t : datetime) (n : nat) :
  interval_of name (half_hours t (S n)) = spanning name t n.
Proof.
  unfold interval_of, spanning. rewrite half_hours_last.
  rewrite half_hours_S. simpl hd. f_equal.
  apply Qred_complete, half_hour_count_hours.
Qed.

Lemma compress_availabilities_single (id : Z) (name : string)
    (hours : list TimeState) :
  compress_availabilities [mkResource id name hours]
  = [(id, compress_hours name hours)].
Proof. reflexivity. Qed.

(** C2.  The compressor keeps exactly the entries whose state is
    available, in the order given, and merges them into runs: a further
    entry extends the current run exactly when its time is the previous
    kept entry's time plus 30 minutes.  So available entries 30 minutes
    apart without a gap yield one interval that spans them all, two such
    sequences separated by a gap of more than 30 minutes yield two
    intervals, and available entries at 09:00, 09:30, 10:00 and 11:00
    yield 09:00-10:00 of length 1.0 and 11:00-11:00 of length 0.0. *)
Theorem compress_merges_runs (id : Z) (name : string)
    (hours : list TimeState) :
  List.concat (split_consecutive (available_hours hours))
  = map hour (filter (fun x => String.eqb (state x) "available") hours)
  /\ compress_availabilities [mkResource id name hours]
     = [(id, map (interval_of name)
               (split_consecutive (available_hours hours)))]
  /\ (forall ts x,
        ts <> [] ->
        split_consecutive (ts ++ [x])
        = if x =? last ts 0 + 30
          then removelast (split_consecutive ts)
                 ++ [last (split_consecutive ts) [] ++ [x]]
          else split_consecutive ts ++ [[x]])
  /\ (forall t n,
        available_hours hours = half_hours t (S n) ->
        compress_availabilities [mkResource id name hours]
        = [(id, [spanning name t n])])
  /\ (forall t n u m,
        available_hours hours = half_hours t (S n) ++ half_hours u (S m) ->
        t + 30 * Z.of_nat n + 30 < u ->
        compress_availabilities [mkResource id name hours]
        = [(id, [spanning name t n; spanning name u m])])
  /\ (available_hours hours
      = [mktime 9 0; mktime 9 30; mktime 10 0; mktime 11 0] ->
      compress_availabilities [mkResource id name hours]
      = [(id, [mkInterval (mktime 9 0) (mktime 10 0) 1 name;
               mkInterval (mktime 11 0) (mktime 11 0) 0 name])]).
Proof.
  split; [apply split_consecutive_concat|].
  split; [reflexivity|].
  split; [apply split_consecutive_snoc|].
  rewrite compress_availabilities_single. unfold compress_hours.
  split; [|split].
  - intros t n ->. rewrite split_consecutive_half_hours. cbn [map].
    rewrite interval_of_half_hours. reflexivity.
  - intros t n u m -> Hgap.
    rewrite split_consecutive_two_runs by lia. cbn [map].
    rewrite !interval_of_half_hours. reflexivity.
  - intros ->. reflexivity.
Qed.

Lemma compress_merges_runs_witness :
  compress_availabilities
    [mkResource 7 "seat"
       [mkTimeState (mktime 9 0) "available";
        mkTimeState (mktime 9 30) "available";
        mkTimeState (mktime 10 0) "available";
        mkTimeState (mktime 10 30) "unavailable";
        mkTimeState (mktime 11 0) "available"]]
  = [(7, [mkInterval (mktime 9 0) (mktime 10 0) 1 "seat";
          mkInterval (mktime 11 0) (mktime 11 0) 0 "seat"])]
  /\ compress_availabilities
       [mkResource 7 "seat"
          [mkTimeState (mktime 9 0) "available";
           mkTimeState (mktime 9 30) "available";
           mkTimeState (mktime 10 0) "available"]]
     = [(7, [spanning "seat" (mktime 9 0) 2])]
  /\ compress_availabilities
       [mkResource 7 "seat"
          [mkTimeState (mktime 9 0) "available";
           mkTimeState (mktime 9 30) "available";
           mkTimeState (mktime 11 0) "available"]]
     = [(7, [spanning "seat" (mktime 9 0) 1;
             spanning "seat" (mktime 11 0) 0])]
  /\ split_consecutive ([mktime 9 0; mktime 9 30] ++ [mktime 10 0])
     = [[mktime 9 0; mktime 9 30; mktime 10 0]].
Proof.
  split; [|split; [|split]].
  - apply (proj2 (proj2 (proj2 (proj2 (proj2
      (compress_merges_runs 7 "seat"
         [mkTimeState (mktime 9 0) "available";
          mkTimeState (mktime 9 30) "available";
          mkTimeState (mktime 10 0) "available";
          mkTimeState (mktime 10 30) "unavailable";
          mkTimeState (mktime 11 0) "available"])))))).
    reflexivity.
  - apply (proj1 (proj2 (proj2 (proj2
      (compress_merges_runs 7 "seat"
         [mkTimeState (mktime 9 0) "available";
          mkTimeState (mktime 9 30) "available";
          mkTimeState (mktime 10 0) "available"]))))).
    reflexivity.
  - apply (proj1 (proj2 (proj2 (proj2 (proj2
      (compress_merges_runs 7 "seat"
         [mkTimeState (mktime 9 0) "available";
          mkTimeState (mktime 9 30) "available";
          mkTimeState (mktime 11 0) "available"])))))
      (mktime 9 0) 1%nat (mktime 11 0) 0%nat).
    + reflexivity.
    + reflexivity.
  - exact (proj1 (proj2 (proj2 (compress_merges_runs 7 "seat" [])))
             [mktime 9 0; mktime 9 30] (mktime 10 0)
             ltac:(discriminate)).
Defined.

(** C6, as the code has it.  Every compressed slot stems from a run of
    [n + 1] available entries 30 minutes apart, and its length is the time
    from the first to the last of them, in hours: [n] times 0.5, with no
    half hour added for the last entry. *)
Theorem compress_hours_lengths (name : string) (hours : list TimeState) :
  Forall2
    (fun run iv =>
       exists t n,
         run = half_hours t (S n)
         /\ iv = interval_of name run
         /\ (slot_length iv
             == inject_Z (last run 0%Z - hd 0%Z run)%Z / 60)%Q
         /\ (slot_length iv == inject_Z (Z.of_nat n) * (1 # 2))%Q)
    (split_consecutive (available_hours hours))
    (compress_hours name hours).
Proof.
  unfold compress_hours.
  induction (split_consecutive_shape (available_hours hours))
    as [|run runs (t & n & ->) _ IH]; cbn [map]; constructor; [|exact IH].
  exists t, n. split; [reflexivity|]. split; [reflexivity|].
  rewrite interval_of_half_hours.
  change (slot_length (spanning name t n))
    with (Qred (inject_Z (Z.of_nat n) * (1 # 2))).
  split; (eapply Qeq_trans; [apply Qred_correct|]); [|reflexivity].
  rewrite half_hours_last, half_hours_S. simpl hd.
  replace (t + 30 * Z.of_nat n - t) with (30 * Z.of_nat n) by lia.
  generalize (Z.of_nat n). intros k.
  unfold Qeq, Qdiv, Qmult, Qinv, inject_Z. cbn -[Z.mul]. lia.
Qed.

(** C6, as the specification words it, fails: a run of one entry, at
    11:00, has length 0.0, not the 0.5 hours that (last - first) + 0.5 and
    1 * 0.5 both give. *)
Lemma single_entry_length_is_zero :
  map slot_length
    (compress_hours "seat" [mkTimeState (mktime 11 0) "available"])
  = [0%Q]
  /\ ~ (0 == inject_Z (mktime 11 0 - mktime 11 0) / 60 + (1 # 2))%Q
  /\ ~ (0 == inject_Z 1 * (1 # 2))%Q.
Proof.
  split; [reflexivity|]. split; intros H; vm_compute in H; discriminate.
Qed.

(** *** Sorted and unsorted input *)

Lemma insert_by_hour_perm (x : TimeState) (l : list TimeState) :
  Permutation (insert_by_hour x l) (x :: l).
Proof.
  induction l as [|y l IH]; simpl; [reflexivity|].
  destruct (hour x <=? hour y); [reflexivity|].
  rewrite IH. apply perm_swap.
Qed.

Lemma sort_by_hour_perm (l : list TimeState) :
  Permutation (sort_by_hour l) l.
Proof.
  induction l as [|x l IH]; simpl; [reflexivity|].
  rewrite insert_by_hour_perm, IH. reflexivity.
Qed.

Lemma insert_by_hour_sorted (x : TimeState) (l : list TimeState) :
  StronglySorted hour_le l -> StronglySorted hour_le (insert_by_hour x l).
Proof.
  induction l as [|y l IH]; intros Hsorted; simpl.
  - constructor; constructor.
  - apply StronglySorted_inv in Hsorted. destruct Hsorted as [Hl Hy].
    destruct (Z.leb_spec (hour x) (hour y)) as [Hle|Hlt].
    + constructor; [constructor; assumption|].
      constructor; [exact Hle|].
      eapply Forall_impl; [|exact Hy].
      intros z Hz. unfold hour_le in *. lia.
    + constructor; [apply IH; exact Hl|].
      apply (Permutation_Forall (Permutation_sym (insert_by_hour_perm x l))).
      constructor; [unfold hour_le; lia|exact Hy].
Qed.

Lemma sort_by_hour_sorted (l : list TimeState) :
  StronglySorted hour_le (sort_by_hour l).
Proof.
  induction l as [|x l IH]; simpl; [constructor|].
  apply insert_by_hour_sorted, IH.
Qed.

Lemma filter_perm {A : Type} (f : A -> bool) (l l' : list A) :
  Permutation l l' -> Permutation (filter f l) (filter f l').
Proof.
  induction 1 as [|x l l' _ IH|x y l|l l' l'' _ IH1 _ IH2]; simpl.
  - constructor.
  - destruct (f x); [constructor|]; exact IH.
  - destruct (f x), (f y); try reflexivity. apply perm_swap.
  - rewrite IH1. exact IH2.
Qed.

Lemma filter_sorted {A : Type} (R : A -> A -> Prop) (f : A -> bool)
    (l : list A) :
  StronglySorted R l -> StronglySorted R (filter f l).
Proof.
  induction 1 as [|x l _ IH Hx]; simpl; [constructor|].
  destruct (f x); [|exact IH].
  constructor; [exact IH|].
  apply Forall_forall. intros y Hy. apply filter_In in Hy.
  rewrite Forall_forall in Hx. apply Hx, Hy.
Qed.

Lemma map_hour_sorted (l : list TimeState) :
  StronglySorted hour_le l -> StronglySorted Z.le (map hour l).
Proof.
  induction 1 as [|x l _ IH Hx]; simpl; constructor; [exact IH|].
  apply Forall_map. exact Hx.
Qed.

(** Two non-decreasing lists with the same members are the same list. *)
Lemma sorted_perm_eq (l1 : list Z) :
  forall l2,
    StronglySorted Z.le l1 -> StronglySorted Z.le l2 ->
    Permutation l1 l2 -> l1 = l2.
Proof.
  induction l1 as [|x l1 IH]; intros l2 H1 H2 Hperm.
  - apply Permutation_nil in Hperm. congruence.
  - destruct l2 as [|y l2].
    + apply Permutation_sym, Permutation_nil in Hperm. discriminate.
    + apply StronglySorted_inv in H1. destruct H1 as [H1 Hx].
      apply StronglySorted_inv in H2. destruct H2 as [H2 Hy].
      assert (Hxy : x = y).
      { assert (Hin1 : In x (y :: l2))
          by (apply (Permutation_in _ Hperm); left; reflexivity).
        assert (Hin2 : In y (x :: l1))
          by (apply (Permutation_in _ (Permutation_sym Hperm)); left;
              reflexivity).
        rewrite Forall_forall in Hx, Hy.
        destruct Hin1 as [->|Hin1]; [reflexivity|].
        destruct Hin2 as [->|Hin2]; [reflexivity|].
        specialize (Hx _ Hin2). specialize (Hy _ Hin1). lia. }
      subst y. f_equal. apply IH; try assumption.
      apply (Permutation_cons_inv Hperm).
Qed.

(** The available hours of the sorted entries are those of any
    rearrangement whose available hours do not decrease. *)
Lemma available_hours_sorted (l given : list TimeState) :
  Permutation l given ->
  Sorted Z.le (available_hours given) ->
  available_hours (sort_by_hour l) = available_hours given.
Proof.
  intros Hperm Hsorted. apply sorted_perm_eq.
  - apply map_hour_sorted, filter_sorted, sort_by_hour_sorted.
  - apply Sorted_StronglySorted; [|exact Hsorted].
    intros a b c. apply Z.le_trans.
  - apply Permutation_map, filter_perm.
    rewrite sort_by_hour_perm. exact Hperm.
Qed.

(** The compressor reads of a resource only its id, its name and its
    available hours. *)
Lemma compress_availabilities_ext (rs rs' : list Resource) :
  Forall2
    (fun r r' =>
       resource_id r = resource_id r'
       /\ resource_name r = resource_name r'
       /\ available_hours (hours r) = available_hours (hours r'))
    rs rs' ->
  compress_availabilities rs = compress_availabilities rs'.
Proof.
  unfold compress_availabilities. generalize (@nil (Z * list Interval)).
  intros acc Hrs. revert acc.
  induction Hrs as [|r r' rs rs' (Hid & Hname & Hhours) _ IH]; intros acc.
  - reflexivity.
  - simpl. unfold compress_hours. rewrite Hid, Hname, Hhours. apply IH.
Qed.

(** C7, as the code has it.  The compressor does not sort; it merges the
    available entries in the order given.  Its result is that for the
    time-sorted lists whenever the lists it is given are rearrangements of
    them whose available entries are in non-decreasing order of time. *)
Theorem compress_sorted_input (available_slots given : list Resource) :
  Forall2
    (fun resource rearranged =>
       resource_id rearranged = resource_id resource
       /\ resource_name rearranged = resource_name resource
       /\ Permutation (hours resource) (hours rearranged)
       /\ Sorted Z.le (available_hours (hours rearranged)))
    available_slots given ->
  compress_availabilities given
  = compress_availabilities (map (with_hours sort_by_hour) available_slots).
Proof.
  intros Hgiven. apply compress_availabilities_ext.
  induction Hgiven as [|r r' rs rs' (Hid & Hname & Hperm & Hsorted) _ IH];
    simpl; constructor; [|exact IH].
  split; [exact Hid|]. split; [exact Hname|].
  symmetry. apply available_hours_sorted; assumption.
Qed.

Lemma compress_sorted_input_witness :
  compress_availabilities
    [mkResource 7 "seat"
       [mkTimeState (mktime 10 0) "unavailable";
        mkTimeState (mktime 9 0) "available";
        mkTimeState (mktime 9 30) "available"]]
  = compress_availabilities
      [mkResource 7 "seat"
         [mkTimeState (mktime 9 0) "available";
          mkTimeState (mktime 9 30) "available";
          mkTimeState (mktime 10 0) "unavailable"]].
Proof.
  apply (compress_sorted_input
           [mkResource 7 "seat"
              [mkTimeState (mktime 9 30) "available";
               mkTimeState (mktime 10 0) "unavailable";
               mkTimeState (mktime 9 0) "available"]]
           [mkResource 7 "seat"
              [mkTimeState (mktime 10 0) "unavailable";
               mkTimeState (mktime 9 0) "available";
               mkTimeState (mktime 9 30) "available"]]).
  constructor; [|constructor].
  split; [reflexivity|]. split; [reflexivity|]. split.
  - exact (Permutation_cons_append
             [mkTimeState (mktime 10 0) "unavailable";
              mkTimeState (mktime 9 0) "available"]
             (mkTimeState (mktime 9 30) "available")).
  - simpl. repeat constructor. vm_compute. discriminate.
Defined.

(** C7, as the specification words it, fails: available entries given as
    09:30, 09:00 yield two intervals of length 0.0, while the time-sorted
    list 09:00, 09:30 yields one interval of length 0.5. *)
Lemma compress_unsorted_differs :
  Permutation
    [mkTimeState (mktime 9 0) "available";
     mkTimeState (mktime 9 30) "available"]
    [mkTimeState (mktime 9 30) "available";
     mkTimeState (mktime 9 0) "available"]
  /\ sort_by_hour
       [mkTimeState (mktime 9 30) "available";
        mkTimeState (mktime 9 0) "available"]
     = [mkTimeState (mktime 9 0) "available";
        mkTimeState (mktime 9 30) "available"]
  /\ compress_availabilities
       [mkResource 7 "seat"
          [mkTimeState (mktime 9 30) "available";
           mkTimeState (mktime 9 0) "available"]]
     = [(7, [mkInterval (mktime 9 30) (mktime 9 30) 0 "seat";
             mkInterval (mktime 9 0) (mktime 9 0) 0 "seat"])]
  /\ compress_availabilities
       [mkResource 7 "seat"
          [mkTimeState (mktime 9 0) "available";
           mkTimeState (mktime 9 30) "available"]]
     = [(7, [mkInterval (mktime 9 0) (mktime 9 30) (1 # 2) "seat"])]
  /\ compress_availabilities
       [mkResource 7 "seat"
          [mkTimeState (mktime 9 30) "available";
           mkTimeState (mktime 9 0) "available"]]
     <> compress_availabilities
          [mkResource 7 "seat"
             (sort_by_hour
                [mkTimeState (mktime 9 30) "available";
                 mkTimeState (mktime 9 0) "available"])].
Proof.
  split; [apply perm_swap|]. split; [reflexivity|].
  split; [reflexivity|]. split; [reflexivity|].
  intros H. vm_compute in H. discriminate.
Qed.

(** ** The Slot Generator *)

Lemma generate_day_emitted (start_date : date)
    (reservation_type : ReservationType) (slot_duration : Z)
    (slots : list DesiredSlot) (i : Z) :
  generate_day start_date reservation_type slot_duration slots i
  = slots ++ emitted reservation_type slot_duration (start_date + i).
Proof.
  unfold generate_day, emitted.
  destruct reservation_type; simpl; rewrite <- ?app_assoc, ?app_nil_r;
    reflexivity.
Qed.

Lemma fold_generate_day (start_date : date)
    (reservation_type : ReservationType) (slot_duration : Z)
    (l : list Z) :
  forall slots,
    fold_left (generate_day start_date reservation_type slot_duration)
      l slots
    = slots
      ++ flat_map (emitted reservation_type slot_duration)
           (map (fun i => start_date + i) l).
Proof.
  induction l as [|i l IH]; intros slots; simpl.
  - rewrite app_nil_r. reflexivity.
  - rewrite IH, generate_day_emitted, <- app_assoc. reflexivity.
Qed.

Lemma range_In (n i : Z) : In i (range n) <-> 0 <= i < n.
Proof.
  unfold range. rewrite in_map_iff. split.
  - intros (k & <- & Hk). apply in_seq in Hk. lia.
  - intros Hi. exists (Z.to_nat i). split; [lia|]. apply in_seq. lia.
Qed.

Lemma seq_days_sorted (start_date : date) (n a : nat) :
  StronglySorted Z.lt
    (map (fun i => start_date + i) (map Z.of_nat (seq a n))).
Proof.
  revert a. induction n as [|n IH]; intros a; simpl; constructor.
  - apply IH.
  - rewrite Forall_forall. intros day Hday.
    apply in_map_iff in Hday. destruct Hday as (i & <- & Hi).
    apply in_map_iff in Hi. destruct Hi as (k & <- & Hk).
    apply in_seq in Hk. lia.
Qed.

Lemma sorted_app {A : Type} (R : A -> A -> Prop) (l1 l2 : list A) :
  StronglySorted R l1 -> StronglySorted R l2 ->
  (forall a b, In a l1 -> In b l2 -> R a b) ->
  StronglySorted R (l1 ++ l2).
Proof.
  induction 1 as [|x l1 _ IH Hx]; intros H2 Hcross; simpl; [exact H2|].
  constructor.
  - apply IH; [exact H2|]. intros a b Ha Hb. apply Hcross; [right|]; auto.
  - apply Forall_app. split; [exact Hx|].
    rewrite Forall_forall. intros b Hb. apply Hcross; [left|]; auto.
Qed.

Lemma emitted_date (reservation_type : ReservationType) (slot_duration : Z)
    (day : date) (slot : DesiredSlot) :
  In slot (emitted reservation_type slot_duration day) ->
  desired_date slot = day.
Proof.
  unfold emitted. destruct reservation_type; simpl;
    intros H; repeat destruct H as [<-|H]; try contradiction; reflexivity.
Qed.

Lemma emitted_sorted (reservation_type : ReservationType)
    (slot_duration : Z) (day : date) :
  StronglySorted earlier (emitted reservation_type slot_duration day).
Proof.
  unfold emitted. destruct reservation_type; simpl.
  - constructor; [constructor; constructor|].
    constructor; [|constructor].
    right. simpl. split; reflexivity.
  - constructor; constructor.
  - constructor; constructor.
Qed.

Lemma flat_map_emitted_sorted (reservation_type : ReservationType)
    (slot_duration : Z) (days : list date) :
  StronglySorted Z.lt days ->
  StronglySorted earlier
    (flat_map (emitted reservation_type slot_duration) days).
Proof.
  induction 1 as [|day days _ IH Hday]; simpl; [constructor|].
  apply sorted_app; [apply emitted_sorted|exact IH|].
  intros a b Ha Hb. left.
  apply emitted_date in Ha. apply in_flat_map in Hb.
  destruct Hb as (day' & Hday' & Hb). apply emitted_date in Hb.
  rewrite Forall_forall in Hday. specialize (Hday _ Hday'). lia.
Qed.

(** C8.  The generator clamps [end_date] to seven days after [now]; the
    days it covers are exactly those from [start_date] through the clamped
    [end_date], in increasing order, and for each of them it emits the
    09:00 slot under [FULL_DAY] and [ONLY_MORNING] and then the 14:00 slot
    under [FULL_DAY] and [ONLY_AFTERNOON], each with the given duration, so
    that the slots come out in chronological order. *)
Theorem generate_slots_days (now start_date end_date : date)
    (reservation_type : ReservationType) (slot_duration : Z) :
  exists days,
    (forall day,
       In day days <-> start_date <= day <= Z.min end_date (now + 7))
    /\ StronglySorted Z.lt days
    /\ generate_slots now start_date end_date reservation_type
         slot_duration
       = flat_map (emitted reservation_type slot_duration) days
    /\ StronglySorted earlier
         (generate_slots now start_date end_date reservation_type
            slot_duration).
Proof.
  unfold generate_slots.
  replace (if end_date >? now + 7 then now + 7 else end_date)
    with (Z.min end_date (now + 7))
    by (destruct (Z.gtb_spec end_date (now + 7)); lia).
  set (clamped := Z.min end_date (now + 7)).
  rewrite fold_generate_day. simpl app.
  exists (map (fun i => start_date + i) (range (clamped - start_date + 1))).
  assert (Hsorted : StronglySorted Z.lt
            (map (fun i => start_date + i)
               (range (clamped - start_date + 1))))
    by apply seq_days_sorted.
  split; [|split; [exact Hsorted|split; [reflexivity|]]].
  - intros day. rewrite in_map_iff. split.
    + intros (i & <- & Hi). apply range_In in Hi. lia.
    + intros Hday. exists (day - start_date). split; [lia|].
      apply range_In. lia.
  - apply flat_map_emitted_sorted, Hsorted.
Qed.

(** ** The Allocation Planner *)

Section PlannerFacts.

Variable today : date.
Variable provider : Z -> date -> list Resource.

(** One turn of [for slot in slots]. *)
Lemma iterate_slots_step (resource : Z) (name : string) (i : nat)
    (slots : list DesiredSlot) (found : list Reservation)
    (asked : list Query) :
  iterate_slots today provider resource name i slots found asked
  = match nth_error slots i with
    | None => (slots, found, asked)
    | Some slot =>
        match ideal_for today provider resource slot with
        | Some ideal =>
            iterate_slots today provider resource name (S i)
              (list_remove slot slots)
              (found ++ [reservation_for name slot ideal])
              (asked ++ [mkQuery resource (desired_date slot)])
        | None =>
            iterate_slots today provider resource name (S i) slots found
              (asked ++ [mkQuery resource (desired_date slot)])
        end
    end.
Proof.
  funelim (iterate_slots today provider resource name i slots found asked).
  - rewrite e. reflexivity.
  - rewrite Hslot, e. reflexivity.
  - rewrite Hslot, e. reflexivity.
Qed.

(** A property that every turn of the loop over the slots preserves
    holds when the loop ends. *)
Lemma iterate_slots_invariant (resource : Z) (name : string)
    (Inv : nat -> list DesiredSlot -> list Reservation -> list Query
           -> Prop) :
  (forall i slots found asked slot ideal,
     Inv i slots found asked ->
     nth_error slots i = Some slot ->
     ideal_for today provider resource slot = Some ideal ->
     Inv (S i) (list_remove slot slots)
       (found ++ [reservation_for name slot ideal])
       (asked ++ [mkQuery resource (desired_date slot)])) ->
  (forall i slots found asked slot,
     Inv i slots found asked ->
     nth_error slots i = Some slot ->
     ideal_for today provider resource slot = None ->
     Inv (S i) slots found
       (asked ++ [mkQuery resource (desired_date slot)])) ->
  forall i slots found asked,
    Inv i slots found asked ->
    exists i' slots' found' asked',
      iterate_slots today provider resource name i slots found asked
      = (slots', found', asked')
      /\ nth_error slots' i' = None
      /\ Inv i' slots' found' asked'.
Proof.
  intros Hmatch Hmiss i slots found asked.
  funelim (iterate_slots today provider resource name i slots found asked);
    intros HInv.
  - exists i, slots, found, asked.
    split; [reflexivity|]. split; assumption.
  - apply H; try assumption. eapply Hmatch; eassumption.
  - apply H; try assumption. eapply Hmiss; eassumption.
Qed.

(** A property that every pass over the slots preserves holds when the
    loop over the resources ends. *)
Lemma iterate_resources_invariant
    (J : list DesiredSlot -> list Reservation -> list Query -> Prop)
    (resource_ids : list (Z * string)) :
  (forall resource name slots found asked slots' found' asked',
     In (resource, name) resource_ids ->
     J slots found asked ->
     iterate_slots today provider resource name 0 slots found asked
     = (slots', found', asked') ->
     J slots' found' asked') ->
  forall slots found asked,
    J slots found asked ->
    exists slots' found' asked',
      iterate_resources today provider resource_ids slots found asked
      = (slots', found', asked')
      /\ J slots' found' asked'.
Proof.
  induction resource_ids as [|[resource name] rest IH];
    intros Hpass slots found asked HJ; simpl.
  - exists slots, found, asked. split; [reflexivity|exact HJ].
  - destruct (iterate_slots today provider resource name 0 slots found
                asked) as [[slots' found'] asked'] eqn:Hrun.
    assert (HJ' : J slots' found' asked').
    { eapply Hpass; [left; reflexivity|exact HJ|exact Hrun]. }
    destruct (List.length slots' =? 0)%nat.
    + exists slots', found', asked'. split; [reflexivity|exact HJ'].
    + apply IH; [|exact HJ'].
      intros resource0 name0 s f a s' f' a' Hin.
      apply Hpass. right. exact Hin.
Qed.

Lemma DesiredSlot_eqb_eq (a b : DesiredSlot) :
  DesiredSlot_eqb a b = true <-> a = b.
Proof.
  unfold DesiredSlot_eqb. rewrite !andb_true_iff, !Z.eqb_eq.
  destruct a, b; simpl. split.
  - intros [[-> ->] ->]. reflexivity.
  - intros [= -> -> ->]. auto.
Qed.

Lemma list_remove_incl (slot : DesiredSlot) (slots : list DesiredSlot) :
  incl (list_remove slot slots) slots.
Proof.
  induction slots as [|x rest IH]; simpl; [apply incl_refl|].
  destruct (DesiredSlot_eqb x slot).
  - apply incl_tl, incl_refl.
  - apply incl_cons; [left; reflexivity|]. apply incl_tl. exact IH.
Qed.

(** [slots.remove(slot)] takes exactly one [slot] out of a list that
    holds it. *)
Lemma list_remove_perm (slot : DesiredSlot) (slots : list DesiredSlot) :
  In slot slots -> Permutation slots (slot :: list_remove slot slots).
Proof.
  induction slots as [|x rest IH]; simpl; [contradiction|].
  destruct (DesiredSlot_eqb x slot) eqn:Hx.
  - apply DesiredSlot_eqb_eq in Hx. subst x. reflexivity.
  - intros [->|Hin].
    + assert (DesiredSlot_eqb slot slot = true)
        by (apply DesiredSlot_eqb_eq; reflexivity).
      congruence.
    + rewrite (IH Hin) at 1. apply perm_swap.
Qed.

(** The element the loop removes is in the list: [remove] does not
    raise. *)
Lemma iterate_slots_removes_member (i : nat) (slots : list DesiredSlot)
    (slot : DesiredSlot) :
  nth_error slots i = Some slot -> In slot slots.
Proof. apply nth_error_In. Qed.

Lemma reserved_slot_reservation_for (name : string) (slot : DesiredSlot)
    (ideal : Z * Interval) :
  reserved_slot (reservation_for name slot ideal) = slot.
Proof. destruct slot. reflexivity. Qed.


(** A run on a single desired slot that the first resource type can
    host reserves it there and queries no other resource type. *)
Lemma iterate_resources_single_slot (resource : Z) (name : string)
    (rest : list (Z * string)) (slot : DesiredSlot)
    (ideal : Z * Interval) :
  ideal_for today provider resource slot = Some ideal ->
  iterate_resources today provider ((resource, name) :: rest) [slot]
    [] []
  = ([], [reservation_for name slot ideal],
     [mkQuery resource (desired_date slot)]).
Proof.
  intros Hideal. cbn [iterate_resources].
  rewrite iterate_slots_step. cbn [nth_error]. rewrite Hideal.
  rewrite iterate_slots_step. cbn [list_remove].
  replace (DesiredSlot_eqb slot slot) with true
    by (symmetry; apply DesiredSlot_eqb_eq; reflexivity).
  reflexivity.
Qed.

(** Every desired slot ends up either in exactly one reservation or
    among the pending slots. *)
Lemma construct_reservations_conserves (resourses : list ResourceType)
    (resourse_preference : list string) (slots : list DesiredSlot) :
  let out :=
    construct_reservations today provider resourses resourse_preference
      slots in
  Permutation slots (map reserved_slot (reservations out) ++ pending out)
  /\ (warned out = true <-> pending out <> []).
Proof.
  unfold construct_reservations.
  set (J := fun (pending : list DesiredSlot) (found : list Reservation)
                (_ : list Query) =>
              Permutation slots (map reserved_slot found ++ pending)).
  destruct (iterate_resources_invariant J
              (resolve_preferences resourses resourse_preference))
    with (slots := slots) (found := @nil Reservation)
         (asked := @nil Query)
    as (slots' & found' & asked' & Hrun & HJ).
  - intros resource name s f a s' f' a' _ HJ Hrun.
    destruct (iterate_slots_invariant resource name
                (fun _ pending found asked => J pending found asked))
      with (i := 0%nat) (slots := s) (found := f) (asked := a)
      as (i' & s2 & f2 & a2 & Hrun2 & _ & HJ2).
    + intros i pending found asked slot ideal HJi Hslot _. unfold J in *.
      rewrite map_app. simpl map.
      rewrite reserved_slot_reservation_for, <- app_assoc. simpl app.
      rewrite HJi. apply Permutation_app_head.
      apply list_remove_perm. eapply nth_error_In, Hslot.
    + intros i pending found asked slot HJi _ _. exact HJi.
    + exact HJ.
    + rewrite Hrun in Hrun2. injection Hrun2 as <- <- <-. exact HJ2.
  - unfold J. reflexivity.
  - rewrite Hrun. simpl. split; [exact HJ|].
    destruct slots'; cbn; split; intros H;
      try discriminate; try reflexivity. contradiction H. reflexivity.
Qed.

(** X10.  Distinct desired slots are claimed at most once: no two
    reservations are for the same slot, and no reserved slot is still
    pending. *)
Lemma construct_reservations_claims_once (resourses : list ResourceType)
    (resourse_preference : list string) (slots : list DesiredSlot) :
  NoDup slots ->
  let out :=
    construct_reservations today provider resourses resourse_preference
      slots in
  NoDup (map reserved_slot (reservations out) ++ pending out).
Proof.
  intros Hdistinct out.
  apply (Permutation_NoDup
           (proj1 (construct_reservations_conserves resourses
                     resourse_preference slots))).
  exact Hdistinct.
Qed.

(** C9.  Every reservation the planner returns was made for one of the
    desired slots, against one of the preferred resource types, from the
    match the matcher found there; it carries the date, the start time
    and the duration of the desired slot, whatever the start of the
    matched interval (which lies within 30 minutes of the desired
    start), and takes from the match the resource id and the resource
    name only. *)
Theorem reservations_carry_desired_slot (resourses : list ResourceType)
    (resourse_preference : list string) (slots : list DesiredSlot) :
  Forall
    (fun reservation =>
       exists slot resource name seat interval,
         In slot slots
         /\ In (resource, name)
              (resolve_preferences resourses resourse_preference)
         /\ ideal_for today provider resource slot = Some (seat, interval)
         /\ Z.abs (slot_start interval - desired_start slot) <= 30
         /\ reservation
            = {| reservation_resource_id := seat;
                 reservation_resource_type := name;
                 reservation_resource_name := interval_name interval;
                 reservation_start_time := desired_start slot;
                 reservation_duration := desired_duration slot;
                 reservation_date := desired_date slot |})
    (reservations
       (construct_reservations today provider resourses
          resourse_preference slots)).
Proof.
  unfold construct_reservations.
  set (ids := resolve_preferences resourses resourse_preference).
  match goal with |- Forall ?Q _ =>
    set (J := fun (pending : list DesiredSlot) (found : list Reservation)
                  (_ : list Query) =>
                incl pending slots /\ Forall Q found)
  end.
  destruct (iterate_resources_invariant J ids)
    with (slots := slots) (found := @nil Reservation)
         (asked := @nil Query)
    as (slots' & found' & asked' & Hrun & _ & HQ).
  - intros resource name s f a s' f' a' Hin HJ Hrun.
    destruct (iterate_slots_invariant resource name
                (fun _ pending found asked => J pending found asked))
      with (i := 0%nat) (slots := s) (found := f) (asked := a)
      as (i' & s2 & f2 & a2 & Hrun2 & _ & HJ2).
    + intros i pending found asked slot [seat interval]
        [Hincl HQ] Hslot Hideal.
      split.
      * intros x Hx. apply Hincl. eapply list_remove_incl, Hx.
      * apply Forall_app. split; [exact HQ|].
        constructor; [|constructor].
        exists slot, resource, name, seat, interval.
        split; [apply Hincl; eapply nth_error_In, Hslot|].
        split; [exact Hin|]. split; [exact Hideal|].
        split; [|reflexivity].
        apply find_ideal_slot_qualifies in Hideal. apply Hideal.
    + intros i pending found asked slot HJi _ _. exact HJi.
    + exact HJ.
    + rewrite Hrun in Hrun2. injection Hrun2 as <- <- <-. exact HJ2.
  - split; [apply incl_refl|constructor].
  - rewrite Hrun. simpl. exact HQ.
Qed.

End PlannerFacts.

(** A reservation keeps the desired start when the matched interval starts
    half an hour later: the seat is free from 09:30 to 15:00, the slot
    asks for 4 hours from 09:00. *)
Example reservation_keeps_desired_start :
  let free :=
    map (fun t => mkTimeState t "available") (half_hours (mktime 9 30) 12) in
  let provider := fun (_ : Z) (_ : date) => [mkResource 101 "seat" free] in
  ideal_for 0 provider 1 (mkDesiredSlot (mktime 9 0) 4 1)
  = Some (101, mkInterval (mktime 9 30) (mktime 15 0) (11 # 2) "seat")
  /\ reservations
       (construct_reservations 0 provider [mkResourceType "R1" 1]
          ["R1"%string] [mkDesiredSlot (mktime 9 0) 4 1])
     = [mkReservation 101 "R1" "seat" (mktime 9 0) 4 1].
Proof. split; reflexivity. Qed.

(** C3 at a failing input.  One preferred resource type offers a seat that
    is free from 09:00 to 14:00 on days 1 and 2 and nothing on day 3, so of
    the three desired slots A, B, C (4 hours from 09:00 on days 1, 2, 3)
    exactly A and B can be matched.  The planner reserves A, removes it
    from the list it is iterating over and thereby passes over B: it
    returns one reservation and leaves B and C pending. *)
Theorem planner_passes_over_slot_after_match :
  let free :=
    map (fun t => mkTimeState t "available") (half_hours (mktime 9 0) 11) in
  let provider :=
    fun (_ : Z) (day : date) =>
      if day <? 3 then [mkResource 101 "seat" free] else [] in
  let A := mkDesiredSlot (mktime 9 0) 4 1 in
  let B := mkDesiredSlot (mktime 9 0) 4 2 in
  let C := mkDesiredSlot (mktime 9 0) 4 3 in
  let out :=
    construct_reservations 0 provider [mkResourceType "R1" 1]
      ["R1"%string] [A; B; C] in
  ideal_for 0 provider 1 A <> None
  /\ ideal_for 0 provider 1 B <> None
  /\ ideal_for 0 provider 1 C = None
  /\ reservations out = [mkReservation 101 "R1" "seat" (mktime 9 0) 4 1]
  /\ pending out = [B; C]
  /\ queries out = [mkQuery 1 1; mkQuery 1 3]
  /\ warned out = true.
Proof.
  vm_compute. repeat split; try discriminate.
Qed.

(** C4 at a failing input.  Both preferred resource types R1 and R2 offer,
    on every day, a seat that is free from 09:00 to 14:00, which qualifies
    for both desired slots A and B (4 hours from 09:00 on days 1 and 2).
    The planner reserves A at R1, removes it from the list it is iterating
    over and thereby passes over B: R1 is never queried for B, and B is
    queried for and reserved at R2. *)
Theorem planner_passes_over_preferred_resource :
  let free :=
    map (fun t => mkTimeState t "available") (half_hours (mktime 9 0) 11) in
  let provider :=
    fun (resource : Z) (_ : date) =>
      [mkResource (100 + resource) "seat" free] in
  let A := mkDesiredSlot (mktime 9 0) 4 1 in
  let B := mkDesiredSlot (mktime 9 0) 4 2 in
  let out :=
    construct_reservations 0 provider
      [mkResourceType "R1" 1; mkResourceType "R2" 2]
      ["R1"%string; "R2"%string] [A; B] in
  ideal_for 0 provider 1 B
  = Some (101, mkInterval (mktime 9 0) (mktime 14 0) 5 "seat")
  /\ ideal_for 0 provider 2 B
     = Some (102, mkInterval (mktime 9 0) (mktime 14 0) 5 "seat")
  /\ reservations out
     = [mkReservation 101 "R1" "seat" (mktime 9 0) 4 1;
        mkReservation 102 "R2" "seat" (mktime 9 0) 4 2]
  /\ pending out = []
  /\ queries out = [mkQuery 1 1; mkQuery 2 2].
Proof.
  vm_compute. repeat split.
Qed.

(** ** Further properties of the Interval Compressor *)

Lemma dict_get_set_same {V : Type} (d : dict V) (k : Z) (v : V) :
  dict_get (dict_set d k v) k = Some v.
Proof.
  induction d as [|[k' v'] rest IH]; simpl.
  - rewrite Z.eqb_refl. reflexivity.
  - destruct (Z.eqb_spec k' k) as [->|Hne]; simpl.
    + rewrite Z.eqb_refl. reflexivity.
    + destruct (Z.eqb_spec k' k); [contradiction|exact IH].
Qed.

Lemma dict_get_set_other {V : Type} (d : dict V) (k k' : Z) (v : V) :
  k' <> k -> dict_get (dict_set d k v) k' = dict_get d k'.
Proof.
  intros Hne. induction d as [|[k0 v0] rest IH]; simpl.
  - destruct (Z.eqb_spec k k'); [congruence|reflexivity].
  - destruct (Z.eqb_spec k0 k) as [->|Hk0]; simpl.
    + destruct (Z.eqb_spec k k'); [congruence|reflexivity].
    + destruct (Z.eqb_spec k0 k'); [reflexivity|exact IH].
Qed.

Lemma dict_set_keys {V : Type} (d : dict V) (k : Z) (v : V) :
  map fst (dict_set d k v)
  = if existsb (Z.eqb k) (map fst d) then map fst d else map fst d ++ [k].
Proof.
  induction d as [|[k' v'] rest IH]; simpl; [reflexivity|].
  rewrite (Z.eqb_sym k k').
  destruct (Z.eqb_spec k' k) as [->|Hne]; simpl; [reflexivity|].
  rewrite IH. destruct (existsb (Z.eqb k) (map fst rest)); reflexivity.
Qed.

Lemma compress_availabilities_snoc (rs : list Resource) (r : Resource) :
  compress_availabilities (rs ++ [r])
  = dict_set (compress_availabilities rs) (resource_id r)
      (compress_hours (resource_name r) (hours r)).
Proof. unfold compress_availabilities. rewrite fold_left_app. reflexivity. Qed.

(** X1.  Looking a resource id up in the compressed mapping yields the
    intervals of the last element of the provider's answer that carries
    this id (an earlier element with the same id is overwritten), and
    nothing when no element carries it. *)
Theorem compress_availabilities_lookup (available_slots : list Resource)
    (id : Z) :
  dict_get (compress_availabilities available_slots) id
  = match find (fun r => resource_id r =? id) (rev available_slots) with
    | Some r => Some (compress_hours (resource_name r) (hours r))
    | None => None
    end.
Proof.
  induction available_slots as [|r rs IH] using rev_ind; [reflexivity|].
  rewrite compress_availabilities_snoc, rev_unit. simpl find.
  destruct (Z.eqb_spec (resource_id r) id) as [<-|Hne].
  - apply dict_get_set_same.
  - rewrite dict_get_set_other by congruence. exact IH.
Qed.

(** X2.  The keys of the compressed mapping are the resource ids of the
    provider's answer, each once, however often the answer repeats an
    id. *)
Theorem compress_availabilities_keys (available_slots : list Resource) :
  NoDup (map fst (compress_availabilities available_slots))
  /\ (forall id,
        In id (map fst (compress_availabilities available_slots))
        <-> In id (map resource_id available_slots)).
Proof.
  induction available_slots as [|r rs [IHnodup IHin]] using rev_ind.
  - split; [constructor|]. intros id. reflexivity.
  - rewrite compress_availabilities_snoc, dict_set_keys, map_app.
    simpl map.
    destruct (existsb (Z.eqb (resource_id r))
                (map fst (compress_availabilities rs))) eqn:Hknown.
    + split; [exact IHnodup|]. intros id. rewrite in_app_iff, IHin.
      split; [auto|]. intros [Hin|[<-|[]]]; [exact Hin|].
      apply IHin. apply existsb_exists in Hknown.
      destruct Hknown as (k & Hk & Heq). apply Z.eqb_eq in Heq.
      subst k. exact Hk.
    + split.
      * apply NoDup_app; [exact IHnodup|repeat constructor; auto|].
        intros k Hk [<-|[]].
        assert (existsb (Z.eqb (resource_id r))
                  (map fst (compress_availabilities rs)) = true).
        { apply existsb_exists. exists (resource_id r).
          split; [exact Hk|apply Z.eqb_refl]. }
        congruence.
      * intros id. rewrite !in_app_iff, IHin. reflexivity.
Qed.

Lemma runs_from_head (l : list datetime) :
  forall (current : list datetime) (previous : datetime),
  exists more runs,
    runs_from current previous l = (current ++ more) :: runs.
Proof.
  induction l as [|x l IH]; intros current previous.
  - exists [], []. simpl. rewrite app_nil_r. reflexivity.
  - rewrite runs_from_cons. destruct (x =? previous + 30).
    + destruct (IH (current ++ [x]) x) as (more & runs & ->).
      exists (x :: more), runs. rewrite <- app_assoc. reflexivity.
    + exists [], (runs_from [x] x l). rewrite app_nil_r. reflexivity.
Qed.

(** Two runs that follow each other are not 30 minutes apart. *)
Lemma runs_from_boundaries (l : list datetime) :
  forall (current : list datetime) (previous : datetime)
         (pre : list (list datetime)) (r1 r2 : list datetime)
         (post : list (list datetime)),
    last current 0 = previous ->
    runs_from current previous l = pre ++ r1 :: r2 :: post ->
    hd 0 r2 <> last r1 0 + 30.
Proof.
  induction l as [|x l IH]; intros current previous pre r1 r2 post Hlast.
  - simpl. destruct pre as [|p [|p' pre]]; discriminate.
  - rewrite runs_from_cons.
    destruct (Z.eqb_spec x (previous + 30)) as [_|Hgap].
    + apply IH. apply last_last.
    + destruct pre as [|p pre]; simpl; intros [= <- Hruns].
      * destruct (runs_from_head l [x] x) as (more & runs & Hhead).
        rewrite Hhead in Hruns. injection Hruns as <- _.
        simpl. congruence.
      * apply (IH [x] x pre r1 r2 post eq_refl). exact Hruns.
Qed.

Lemma split_consecutive_boundaries (l : list datetime)
    (pre : list (list datetime)) (r1 r2 : list datetime)
    (post : list (list datetime)) :
  split_consecutive l = pre ++ r1 :: r2 :: post ->
  hd 0 r2 <> last r1 0 + 30.
Proof.
  destruct l as [|t l].
  - destruct pre; discriminate.
  - rewrite split_consecutive_cons. apply runs_from_boundaries. reflexivity.
Qed.

(** Every member of a run is one of the hours given. *)
Lemma split_consecutive_member (l : list datetime) (run : list datetime)
    (x : datetime) :
  In run (split_consecutive l) -> In x run -> In x l.
Proof.
  intros Hrun Hx. rewrite <- (split_consecutive_concat l).
  apply in_concat. exists run. split; assumption.
Qed.

Lemma half_hours_hd_in (t : datetime) (n : nat) :
  In (hd 0 (half_hours t (S n))) (half_hours t (S n)).
Proof. left. reflexivity. Qed.

Lemma half_hours_last_in (t : datetime) (n : nat) :
  In (last (half_hours t (S n)) 0) (half_hours t (S n)).
Proof.
  rewrite half_hours_last, <- half_hours_snoc.
  apply in_or_app. right. left. reflexivity.
Qed.

(** Within a day, the compressed slot of a run starts at the run's first
    hour and ends at its last. *)
Lemma interval_of_in_day (name : string) (l : list datetime)
    (run : list datetime) :
  Forall in_day l ->
  In run (split_consecutive l) ->
  slot_start (interval_of name run) = hd 0 run
  /\ slot_end (interval_of name run) = last run 0
  /\ hd 0 run <= last run 0.
Proof.
  intros Hday Hrun.
  assert (Hshape := split_consecutive_shape l).
  rewrite Forall_forall in Hshape, Hday.
  destruct (Hshape run Hrun) as (t & n & ->).
  assert (Hhd : in_day (hd 0 (half_hours t (S n)))).
  { apply Hday. eapply split_consecutive_member;
      [exact Hrun|apply half_hours_hd_in]. }
  assert (Hlast : in_day (last (half_hours t (S n)) 0)).
  { apply Hday. eapply split_consecutive_member;
      [exact Hrun|apply half_hours_last_in]. }
  unfold interval_of, time_of, in_day in *. cbn [slot_start slot_end].
  rewrite !Z.mod_small by assumption.
  split; [reflexivity|]. split; [reflexivity|].
  rewrite half_hours_last, half_hours_S. simpl hd. lia.
Qed.

(** X3.  The intervals are maximal: within a day, an interval never starts
    30 minutes after the end of the interval before it, for then the
    compressor would have merged the two. *)
Theorem compress_hours_maximal (name : string) (hours : list TimeState)
    (pre : list Interval) (iv1 iv2 : Interval) (post : list Interval) :
  Forall in_day (available_hours hours) ->
  compress_hours name hours = pre ++ iv1 :: iv2 :: post ->
  slot_start iv2 <> slot_end iv1 + 30.
Proof.
  unfold compress_hours. intros Hday Hsplit.
  apply map_eq_app in Hsplit.
  destruct Hsplit as (runs1 & runs2 & Hruns & _ & Hrest).
  destruct runs2 as [|r1 [|r2 runs2]]; try discriminate.
  injection Hrest as <- <- _.
  assert (Hin1 : In r1 (split_consecutive (available_hours hours)))
    by (rewrite Hruns; apply in_or_app; right; left; reflexivity).
  assert (Hin2 : In r2 (split_consecutive (available_hours hours)))
    by (rewrite Hruns; apply in_or_app; right; right; left; reflexivity).
  destruct (interval_of_in_day name _ r1 Hday Hin1) as (_ & -> & _).
  destruct (interval_of_in_day name _ r2 Hday Hin2) as (-> & _ & _).
  eapply split_consecutive_boundaries. exact Hruns.
Qed.

Lemma compress_hours_maximal_witness :
  (mktime 11 0 =? mktime 10 0 + 30) = false.
Proof.
  apply Z.eqb_neq.
  apply (compress_hours_maximal "seat"
           [mkTimeState (mktime 9 0) "available";
            mkTimeState (mktime 9 30) "available";
            mkTimeState (mktime 10 0) "available";
            mkTimeState (mktime 11 0) "available"]
           []
           (mkInterval (mktime 9 0) (mktime 10 0) 1 "seat")
           (mkInterval (mktime 11 0) (mktime 11 0) 0 "seat")
           []).
  - repeat constructor; vm_compute; discriminate.
  - reflexivity.
Defined.

Lemma split_consecutive_nil_iff (l : list datetime) :
  split_consecutive l = [] <-> l = [].
Proof.
  split; [|intros ->; reflexivity].
  destruct l as [|t l]; [reflexivity|].
  rewrite split_consecutive_cons.
  destruct (runs_from_head l [t] t) as (more & runs & ->). discriminate.
Qed.

Lemma concat_length_runs (runs : list (list datetime)) :
  Forall (fun run => exists t n, run = half_hours t (S n)) runs ->
  (List.length runs <= List.length (List.concat runs))%nat.
Proof.
  induction 1 as [|run runs (t & n & ->) _ IH]; simpl; [lia|].
  rewrite length_app. simpl. lia.
Qed.

(** X4.  A resource yields no interval exactly when none of its entries is
    available, and never more intervals than it has available entries. *)
Theorem compress_hours_count (name : string) (hours : list TimeState) :
  (compress_hours name hours = []
   <-> Forall (fun x => state x <> "available"%string) hours)
  /\ (List.length (compress_hours name hours)
      <= List.length
           (filter (fun x => String.eqb (state x) "available") hours))%nat.
Proof.
  unfold compress_hours. split.
  - rewrite <- (length_zero_iff_nil (map _ _)), length_map,
      length_zero_iff_nil, split_consecutive_nil_iff.
    unfold available_hours.
    rewrite <- (length_zero_iff_nil (map _ _)), length_map,
      length_zero_iff_nil.
    induction hours as [|x hours IH]; simpl.
    + split; auto.
    + destruct (String.eqb_spec (state x) "available") as [Heq|Hne].
      * split; [discriminate|]. intros H. inversion H. contradiction.
      * rewrite IH. split; [auto|]. intros H. inversion H. assumption.
  - rewrite length_map.
    rewrite <- (length_map hour
                  (filter (fun x => String.eqb (state x) "available") hours)).
    fold (available_hours hours).
    rewrite <- (split_consecutive_concat (available_hours hours)) at 2.
    apply concat_length_runs, split_consecutive_shape.
Qed.

Lemma sorted_app_inv {A : Type} (R : A -> A -> Prop) (l1 l2 : list A) :
  StronglySorted R (l1 ++ l2) ->
  StronglySorted R l1 /\ StronglySorted R l2
  /\ (forall a b, In a l1 -> In b l2 -> R a b).
Proof.
  induction l1 as [|x l1 IH]; simpl; intros Hsorted.
  - split; [constructor|]. split; [exact Hsorted|]. intros a b [].
  - apply StronglySorted_inv in Hsorted. destruct Hsorted as [Hrest Hx].
    destruct (IH Hrest) as (H1 & H2 & Hcross).
    apply Forall_app in Hx. destruct Hx as [Hx1 Hx2].
    split; [constructor; assumption|]. split; [exact H2|].
    intros a b [<-|Ha] Hb.
    + rewrite Forall_forall in Hx2. apply Hx2, Hb.
    + apply Hcross; assumption.
Qed.

(** Runs cut out of increasing hours follow each other in time. *)
Lemma sorted_runs (runs : list (list datetime)) :
  Forall (fun run => exists t n, run = half_hours t (S n)) runs ->
  StronglySorted Z.lt (List.concat runs) ->
  StronglySorted (fun r1 r2 => last r1 0 < hd 0 r2) runs.
Proof.
  induction 1 as [|run runs (t & n & ->) Hruns IH]; intros Hsorted;
    cbn [List.concat] in Hsorted; constructor.
  - apply IH. apply (sorted_app_inv _ _ _ Hsorted).
  - destruct (sorted_app_inv _ _ _ Hsorted) as (_ & _ & Hcross).
    rewrite Forall_forall in *. intros r2 Hr2.
    destruct (Hruns r2 Hr2) as (u & m & ->).
    apply Hcross; [apply half_hours_last_in|].
    apply in_concat. exists (half_hours u (S m)).
    split; [exact Hr2|apply half_hours_hd_in].
Qed.

(** X5.  When the available entries of a resource come in increasing order
    of time within a day, its intervals come out in chronological order
    and do not overlap: each starts no later than it ends, and ends before
    every later interval starts. *)
Theorem compress_hours_chronological (name : string)
    (hours : list TimeState) :
  Forall in_day (available_hours hours) ->
  StronglySorted Z.lt (available_hours hours) ->
  StronglySorted (fun iv1 iv2 => slot_end iv1 < slot_start iv2)
    (compress_hours name hours)
  /\ Forall (fun iv => slot_start iv <= slot_end iv)
       (compress_hours name hours).
Proof.
  intros Hday Hsorted. unfold compress_hours.
  assert (Hof := interval_of_in_day name (available_hours hours)).
  assert (Hruns : StronglySorted (fun r1 r2 => last r1 0 < hd 0 r2)
                    (split_consecutive (available_hours hours))).
  { apply sorted_runs; [apply split_consecutive_shape|].
    rewrite split_consecutive_concat. exact Hsorted. }
  revert Hof Hruns.
  generalize (split_consecutive (available_hours hours)) as runs.
  induction runs as [|run runs IH]; intros Hof Hruns; simpl.
  - split; constructor.
  - apply StronglySorted_inv in Hruns. destruct Hruns as [Hrest Hrun].
    destruct IH as [IHsorted IHall]; [|exact Hrest|].
    { intros run' Hd Hin. apply Hof; [exact Hd|right; exact Hin]. }
    destruct (Hof run Hday (or_introl eq_refl)) as (Hstart & Hend & Hle).
    split.
    + constructor; [exact IHsorted|].
      rewrite Forall_forall. intros iv Hiv.
      apply in_map_iff in Hiv. destruct Hiv as (run' & <- & Hrun').
      destruct (Hof run' Hday (or_intror Hrun')) as (-> & _ & _).
      rewrite Hend. rewrite Forall_forall in Hrun. apply Hrun, Hrun'.
    + constructor; [|exact IHall]. rewrite Hstart, Hend. exact Hle.
Qed.

Lemma compress_hours_chronological_witness :
  StronglySorted (fun iv1 iv2 => slot_end iv1 < slot_start iv2)
    [mkInterval (mktime 9 0) (mktime 9 30) (1 # 2) "seat";
     mkInterval (mktime 11 0) (mktime 11 0) 0 "seat"].
Proof.
  apply (compress_hours_chronological "seat"
           [mkTimeState (mktime 9 0) "available";
            mkTimeState (mktime 9 30) "available";
            mkTimeState (mktime 10 0) "unavailable";
            mkTimeState (mktime 11 0) "available"]).
  - repeat constructor; vm_compute; discriminate.
  - repeat constructor.
Defined.

(** ** Further properties of the Slot Matcher *)

(** X6.  The day on which the matcher runs does not matter: it combines
    both start times with the same day before it compares them. *)
Theorem find_ideal_slot_any_day (today today' : date)
    (slots : dict (list Interval)) (d : Q) (s : time) :
  find_ideal_slot today slots d s = find_ideal_slot today' slots d s.
Proof. rewrite !find_ideal_slot_find. reflexivity. Qed.

(** X7.  A shorter request is matched wherever a longer one is: if the
    matcher finds an interval for a duration, it finds one for every
    duration that is not longer, at the same desired start. *)
Theorem find_ideal_slot_shorter (today : date)
    (slots : dict (list Interval)) (d d' : Q) (s : time)
    (p : Z * Interval) :
  (d' <= d)%Q ->
  find_ideal_slot today slots d s = Some p ->
  exists p', find_ideal_slot today slots d' s = Some p'.
Proof.
  rewrite !find_ideal_slot_find. intros Hle Hfind.
  apply find_some in Hfind. destruct Hfind as [Hin Hq].
  apply qualifiesb_iff in Hq. destruct Hq as [Hlen Hstart].
  destruct (find (fun p0 => qualifiesb d' s (snd p0)) (scan_order slots))
    as [p'|] eqn:Hfind'; [exists p'; reflexivity|].
  apply find_none in Hfind'. rewrite Forall_forall in Hfind'.
  apply Hfind' in Hin.
  apply qualifiesb_false_iff in Hin. exfalso. apply Hin.
  split; [|exact Hstart]. eapply Qle_lt_trans; eassumption.
Qed.

Lemma find_ideal_slot_shorter_witness :
  exists p',
    find_ideal_slot 0
      [(1, [mkInterval (mktime 9 0) (mktime 14 0) 5 "seat"])]
      (inject_Z 2) (mktime 9 0) = Some p'.
Proof.
  apply (find_ideal_slot_shorter 0
           [(1, [mkInterval (mktime 9 0) (mktime 14 0) 5 "seat"])]
           (inject_Z 4) (inject_Z 2) (mktime 9 0)
           (1, mkInterval (mktime 9 0) (mktime 14 0) 5 "seat")).
  - vm_compute. discriminate.
  - reflexivity.
Defined.

Lemma spanning_length_test (name : string) (t : datetime) (n : nat)
    (d : Z) :
  Qle_bool (slot_length (spanning name t n) - (1 # 2)) (inject_Z d)
  = (Z.of_nat n <=? 2 * d + 1).
Proof.
  apply eq_true_iff_eq. rewrite Qle_bool_iff, Z.leb_le.
  change (slot_length (spanning name t n))
    with (Qred (inject_Z (Z.of_nat n) * (1 # 2))).
  rewrite Qred_correct. generalize (Z.of_nat n). intros k.
  unfold Qle, Qminus, Qplus, Qopp, Qmult, inject_Z. cbn -[Z.mul].
  lia.
Qed.

(** X8.  Compressor and matcher together: against a resource whose
    available entries are [n + 1] half hours in a row from [t] on, a
    request of [d] whole hours is matched exactly when the run has more
    than [2 * d + 2] entries and starts within 30 minutes of the desired
    start; a request of 4 hours needs 11 entries, five full hours from
    the first entry to the last. *)
Theorem find_ideal_slot_in_run (today : date) (id : Z) (name : string)
    (hours : list TimeState) (t : datetime) (n : nat) (d : Z) (s : time) :
  available_hours hours = half_hours t (S n) ->
  find_ideal_slot today (compress_availabilities [mkResource id name hours])
    (inject_Z d) s
  = if (2 * d + 1 <? Z.of_nat n) && (Z.abs (time_of t - s) <=? 30)
    then Some (id, spanning name t n)
    else None.
Proof.
  intros Hhours. rewrite compress_availabilities_single.
  unfold compress_hours. rewrite Hhours, split_consecutive_half_hours.
  cbn [map]. rewrite interval_of_half_hours, find_ideal_slot_single.
  unfold qualifiesb. rewrite spanning_length_test.
  cbn [slot_start spanning].
  rewrite Z.leb_antisym, negb_involutive, Z.gtb_ltb, <- Z.leb_antisym.
  reflexivity.
Qed.

Lemma find_ideal_slot_in_run_witness :
  find_ideal_slot 0
    (compress_availabilities
       [mkResource 101 "seat"
          (map (fun t => mkTimeState t "available")
             (half_hours (mktime 9 0) 11))])
    (inject_Z 4) (mktime 9 0)
  = Some (101, spanning "seat" (mktime 9 0) 10)
  /\ find_ideal_slot 0
       (compress_availabilities
          [mkResource 101 "seat"
             (map (fun t => mkTimeState t "available")
                (half_hours (mktime 9 0) 10))])
       (inject_Z 4) (mktime 9 0)
     = None.
Proof.
  split.
  - apply (find_ideal_slot_in_run 0 101 "seat"
             (map (fun t => mkTimeState t "available")
                (half_hours (mktime 9 0) 11))
             (mktime 9 0) 10 4 (mktime 9 0)).
    reflexivity.
  - apply (find_ideal_slot_in_run 0 101 "seat"
             (map (fun t => mkTimeState t "available")
                (half_hours (mktime 9 0) 10))
             (mktime 9 0) 9 4 (mktime 9 0)).
    reflexivity.
Defined.

(** ** Further properties of the Allocation Planner *)

Lemma construct_reservations_claims_once_witness :
  NoDup
    (map reserved_slot
       (reservations
          (construct_reservations 0
             (fun _ _ =>
                [mkResource 101 "seat"
                   (map (fun t => mkTimeState t "available")
                      (half_hours (mktime 9 0) 11))])
             [mkResourceType "R1" 1] ["R1"%string]
             [mkDesiredSlot (mktime 9 0) 4 1;
              mkDesiredSlot (mktime 9 0) 4 2]))
     ++ pending
          (construct_reservations 0
             (fun _ _ =>
                [mkResource 101 "seat"
                   (map (fun t => mkTimeState t "available")
                      (half_hours (mktime 9 0) 11))])
             [mkResourceType "R1" 1] ["R1"%string]
             [mkDesiredSlot (mktime 9 0) 4 1;
              mkDesiredSlot (mktime 9 0) 4 2])).
Proof.
  apply (construct_reservations_claims_once 0
           (fun _ _ =>
              [mkResource 101 "seat"
                 (map (fun t => mkTimeState t "available")
                    (half_hours (mktime 9 0) 11))])
           [mkResourceType "R1" 1] ["R1"%string]
           [mkDesiredSlot (mktime 9 0) 4 1;
            mkDesiredSlot (mktime 9 0) 4 2]).
  repeat constructor; simpl; intuition discriminate.
Defined.

Section PlannerMore.

Variable today : date.
Variable provider : Z -> date -> list Resource.




End PlannerMore.


Section PlannerQueries.

Variable today : date.
Variable provider : Z -> date -> list Resource.

Lemma list_remove_length (slot : DesiredSlot) (slots : list DesiredSlot) :
  (List.length (list_remove slot slots) <= List.length slots)%nat.
Proof.
  induction slots as [|x rest IH]; simpl; [lia|].
  destruct (DesiredSlot_eqb x slot); simpl; lia.
Qed.

(** What one pass over the slots leaves behind, as a triple. *)
Lemma iterate_slots_pass (resource : Z) (name : string)
    (Inv : nat -> list DesiredSlot -> list Reservation -> list Query
           -> Prop)
    (slots slots' : list DesiredSlot) (found found' : list Reservation)
    (asked asked' : list Query) :
  (forall i slots found asked slot ideal,
     Inv i slots found asked ->
     nth_error slots i = Some slot ->
     ideal_for today provider resource slot = Some ideal ->
     Inv (S i) (list_remove slot slots)
       (found ++ [reservation_for name slot ideal])
       (asked ++ [mkQuery resource (desired_date slot)])) ->
  (forall i slots found asked slot,
     Inv i slots found asked ->
     nth_error slots i = Some slot ->
     ideal_for today provider resource slot = None ->
     Inv (S i) slots found
       (asked ++ [mkQuery resource (desired_date slot)])) ->
  Inv 0%nat slots found asked ->
  iterate_slots today provider resource name 0 slots found asked
  = (slots', found', asked') ->
  exists i', Inv i' slots' found' asked'.
Proof.
  intros Hmatch Hmiss Hstart Hrun.
  destruct (iterate_slots_invariant today provider resource name Inv
              Hmatch Hmiss 0%nat slots found asked Hstart)
    as (i' & s2 & f2 & a2 & Hrun2 & _ & Hend).
  rewrite Hrun in Hrun2. injection Hrun2 as <- <- <-.
  exists i'. exact Hend.
Qed.

(** X12.  The planner calls the provider only for a preferred resource
    type that the site lists and for the date of a desired slot. *)
Theorem queries_are_for_requests (resourses : list ResourceType)
    (resourse_preference : list string) (slots : list DesiredSlot) :
  Forall
    (fun q =>
       (exists res,
          In res resourses
          /\ In (type_name res) resourse_preference
          /\ query_resource q = type_id res)
       /\ (exists slot, In slot slots /\ query_date q = desired_date slot))
    (queries
       (construct_reservations today provider resourses
          resourse_preference slots)).
Proof.
  unfold construct_reservations.
  match goal with |- Forall ?Q _ =>
    set (J := fun (pending : list DesiredSlot) (_ : list Reservation)
                  (asked : list Query) =>
                incl pending slots /\ Forall Q asked)
  end.
  destruct (iterate_resources_invariant today provider J
              (resolve_preferences resourses resourse_preference))
    with (slots := slots) (found := @nil Reservation)
         (asked := @nil Query)
    as (slots' & found' & asked' & Hrun & _ & HQ).
  - intros resource name s f a s' f' a' Hin HJ Hrun.
    assert (Hres : exists res,
               In res resourses
               /\ In (type_name res) resourse_preference
               /\ resource = type_id res).
    { unfold resolve_preferences in Hin. apply in_flat_map in Hin.
      destruct Hin as (pref & Hpref & Hin). apply in_flat_map in Hin.
      destruct Hin as (res & Hres & Hin).
      destruct (String.eqb_spec (type_name res) pref) as [Heq|_];
        [|contradiction].
      destruct Hin as [[= <- _]|[]].
      exists res. rewrite Heq. auto. }
    assert (Hstep : forall i pending found asked slot,
               J pending found asked ->
               nth_error pending i = Some slot ->
               Forall
                 (fun q =>
                    (exists res,
                       In res resourses
                       /\ In (type_name res) resourse_preference
                       /\ query_resource q = type_id res)
                    /\ (exists slot, In slot slots
                                     /\ query_date q = desired_date slot))
                 (asked ++ [mkQuery resource (desired_date slot)])).
    { intros i pending found asked slot [Hincl Hasked] Hslot.
      apply Forall_app. split; [exact Hasked|].
      constructor; [|constructor]. split; [exact Hres|].
      exists slot. split; [|reflexivity].
      apply Hincl. eapply nth_error_In, Hslot. }
    destruct (iterate_slots_pass resource name
                (fun _ pending found asked => J pending found asked)
                s s' f f' a a') as (_ & HJ'); try assumption.
    + intros i pending found asked slot ideal HJi Hslot _. split.
      * intros x Hx. apply (proj1 HJi). eapply list_remove_incl, Hx.
      * eapply Hstep; eassumption.
    + intros i pending found asked slot HJi Hslot _.
      split; [exact (proj1 HJi)|]. eapply Hstep; eassumption.
  - split; [apply incl_refl|constructor].
  - rewrite Hrun. simpl. exact HQ.
Qed.

Lemma iterate_slots_queries_bound (resource : Z) (name : string)
    (slots slots' : list DesiredSlot) (found found' : list Reservation)
    (asked asked' : list Query) :
  iterate_slots today provider resource name 0 slots found asked
  = (slots', found', asked') ->
  (List.length asked' <= List.length asked + List.length slots)%nat
  /\ (List.length slots' <= List.length slots)%nat.
Proof.
  intros Hrun.
  destruct (iterate_slots_pass resource name
              (fun i pending _ queried =>
                 (List.length queried + (List.length pending - i)
                  <= List.length asked + List.length slots)%nat
                 /\ (List.length pending <= List.length slots)%nat)
              slots slots' found found' asked asked')
    as (i' & Hcount & Hpending); try assumption.
  - intros i pending f queried slot ideal [Hcount Hpending] Hslot _.
    assert (i < List.length pending)%nat
      by (apply nth_error_Some; congruence).
    pose proof (list_remove_length slot pending).
    rewrite length_app. simpl. lia.
  - intros i pending f queried slot [Hcount Hpending] Hslot _.
    assert (i < List.length pending)%nat
      by (apply nth_error_Some; congruence).
    rewrite length_app. simpl. lia.
  - lia.
  - lia.
Qed.

Lemma iterate_resources_queries_bound (resource_ids : list (Z * string)) :
  forall (slots slots' : list DesiredSlot)
         (found found' : list Reservation) (asked asked' : list Query),
    iterate_resources today provider resource_ids slots found asked
    = (slots', found', asked') ->
    (List.length asked'
     <= List.length asked
        + List.length resource_ids * List.length slots)%nat
    /\ (List.length slots' <= List.length slots)%nat.
Proof.
  induction resource_ids as [|[resource name] rest IH];
    intros slots slots' found found' asked asked'; simpl.
  - intros [= <- <- <-]. lia.
  - destruct (iterate_slots today provider resource name 0 slots found
                asked) as [[s1 f1] a1] eqn:Hpass.
    apply iterate_slots_queries_bound in Hpass.
    destruct (List.length s1 =? 0)%nat.
    + intros [= <- <- <-]. lia.
    + intros Hrest. apply IH in Hrest. nia.
Qed.

(** X13.  The planner calls the provider at most once for each preferred
    resource type and each desired slot: the number of calls is at most
    the number of resolved resource types times the number of desired
    slots, and no more slots are pending afterwards than before. *)
Theorem queries_bound (resourses : list ResourceType)
    (resourse_preference : list string) (slots : list DesiredSlot) :
  let out :=
    construct_reservations today provider resourses resourse_preference
      slots in
  (List.length (queries out)
   <= List.length (resolve_preferences resourses resourse_preference)
      * List.length slots)%nat
  /\ (List.length (pending out) <= List.length slots)%nat.
Proof.
  intros out. subst out. unfold construct_reservations.
  destruct (iterate_resources today provider
              (resolve_preferences resourses resourse_preference)
              slots [] []) as [[s' f'] a'] eqn:Hrun.
  apply iterate_resources_queries_bound in Hrun. simpl in *. lia.
Qed.

(** X9.  No desired slot is lost or doubled: the slots the reservations
    were made for, together with the slots left pending, are the desired
    slots, each as often as it was asked for; so there are as many
    reservations and pending slots as there were desired slots, and the
    warnings are logged exactly when a slot is left pending. *)
Theorem reservations_and_pending_partition (resourses : list ResourceType)
    (resourse_preference : list string) (slots : list DesiredSlot) :
  let out :=
    construct_reservations today provider resourses resourse_preference
      slots in
  Permutation slots (map reserved_slot (reservations out) ++ pending out)
  /\ (List.length (reservations out) + List.length (pending out)
      = List.length slots)%nat
  /\ (warned out = true <-> pending out <> []).
Proof.
  intros out.
  destruct (construct_reservations_conserves today provider resourses
              resourse_preference slots) as [Hperm Hwarned].
  fold out in Hperm, Hwarned.
  split; [exact Hperm|]. split; [|exact Hwarned].
  apply Permutation_length in Hperm.
  rewrite length_app, length_map in Hperm. lia.
Qed.

End PlannerQueries.

Section PlannerOrder.

Variable today : date.
Variable provider : Z -> date -> list Resource.

Lemma DesiredSlot_eqb_neq (a b : DesiredSlot) :
  a <> b -> DesiredSlot_eqb a b = false.
Proof.
  intros Hne. destruct (DesiredSlot_eqb a b) eqn:Heq; [|reflexivity].
  apply DesiredSlot_eqb_eq in Heq. contradiction.
Qed.

Lemma list_remove_app_notin (slot : DesiredSlot)
    (pre rest : list DesiredSlot) :
  ~ In slot pre -> list_remove slot (pre ++ slot :: rest) = pre ++ rest.
Proof.
  induction pre as [|x pre IH]; intros Hnotin; simpl.
  - replace (DesiredSlot_eqb slot slot) with true
      by (symmetry; apply DesiredSlot_eqb_eq; reflexivity).
    reflexivity.
  - rewrite DesiredSlot_eqb_neq.
    + rewrite IH; [reflexivity|]. intros Hin. apply Hnotin. right. exact Hin.
    + intros ->. apply Hnotin. left. reflexivity.
Qed.

Lemma list_remove_NoDup (slot : DesiredSlot) (slots : list DesiredSlot) :
  NoDup slots -> NoDup (list_remove slot slots).
Proof.
  induction 1 as [|x rest Hx Hrest IH]; simpl; [constructor|].
  destruct (DesiredSlot_eqb x slot); [exact Hrest|].
  constructor; [|exact IH].
  intros Hin. apply Hx. eapply list_remove_incl, Hin.
Qed.

(** One turn of the loop on a slot that the resource type can host: the
    slot is reserved and leaves the list, and the index moves on. *)
Lemma iterate_slots_read (resource : Z) (name : string)
    (pre : list DesiredSlot) (slot : DesiredSlot)
    (rest : list DesiredSlot) (ideal : Z * Interval)
    (found : list Reservation) (asked : list Query) :
  NoDup (pre ++ slot :: rest) ->
  ideal_for today provider resource slot = Some ideal ->
  iterate_slots today provider resource name (List.length pre)
    (pre ++ slot :: rest) found asked
  = iterate_slots today provider resource name (S (List.length pre))
      (pre ++ rest)
      (found ++ [reservation_for name slot ideal])
      (asked ++ [mkQuery resource (desired_date slot)]).
Proof.
  intros Hdistinct Hideal. rewrite iterate_slots_step.
  rewrite nth_error_app2, Nat.sub_diag by lia. cbn [nth_error].
  rewrite Hideal, list_remove_app_notin; [reflexivity|].
  apply NoDup_remove_2 in Hdistinct.
  intros Hin. apply Hdistinct. apply in_or_app. left. exact Hin.
Qed.

Lemma iterate_slots_end (resource : Z) (name : string)
    (slots : list DesiredSlot) (i : nat) (found : list Reservation)
    (asked : list Query) :
  (List.length slots <= i)%nat ->
  iterate_slots today provider resource name i slots found asked
  = (slots, found, asked).
Proof.
  intros Hend. rewrite iterate_slots_step.
  apply nth_error_None in Hend. rewrite Hend. reflexivity.
Qed.

(** A pass over distinct slots all of which the resource type can host
    reserves every other slot: removing the reserved slot moves the next
    one under the index that the iterator then steps over. *)
Lemma iterate_slots_alternates (resource : Z) (name : string)
    (l : list DesiredSlot) :
  (forall pre found asked,
     NoDup (pre ++ l) ->
     (forall slot, In slot l ->
                   ideal_for today provider resource slot <> None) ->
     iterate_slots today provider resource name (List.length pre)
       (pre ++ l) found asked
     = (pre ++ odds l,
        found ++ flat_map (reserve today provider resource name) (evens l),
        asked
        ++ map (fun slot => mkQuery resource (desired_date slot))
             (evens l)))
  /\ (forall a pre found asked,
        NoDup (pre ++ a :: l) ->
        (forall slot, In slot (a :: l) ->
                      ideal_for today provider resource slot <> None) ->
        iterate_slots today provider resource name (List.length pre)
          (pre ++ a :: l) found asked
        = (pre ++ odds (a :: l),
           found
           ++ flat_map (reserve today provider resource name)
                (evens (a :: l)),
           asked
           ++ map (fun slot => mkQuery resource (desired_date slot))
                (evens (a :: l)))).
Proof.
  induction l as [|b l [IH1 IH2]].
  - split.
    + intros pre found asked _ _. rewrite iterate_slots_end.
      * simpl. rewrite !app_nil_r. reflexivity.
      * rewrite app_nil_r. lia.
    + intros a pre found asked Hdistinct Hhosted.
      destruct (ideal_for today provider resource a) as [ideal|] eqn:Ha;
        [|exfalso; apply (Hhosted a); [left; reflexivity|exact Ha]].
      rewrite (iterate_slots_read resource name pre a [] ideal
                 found asked Hdistinct Ha).
      rewrite iterate_slots_end by (rewrite app_nil_r; lia).
      unfold reserve. simpl. rewrite Ha, app_nil_r. reflexivity.
  - split; [intros pre found asked; apply IH2|].
    intros a pre found asked Hdistinct Hhosted.
    destruct (ideal_for today provider resource a) as [ideal|] eqn:Ha;
      [|exfalso; apply (Hhosted a); [left; reflexivity|exact Ha]].
    rewrite (iterate_slots_read resource name pre a (b :: l) ideal
               found asked Hdistinct Ha).
    replace (pre ++ b :: l) with ((pre ++ [b]) ++ l)
      by (rewrite <- app_assoc; reflexivity).
    replace (S (List.length pre)) with (List.length (pre ++ [b]))
      by (rewrite length_app; simpl; lia).
    rewrite IH1.
    + unfold reserve at 2. cbn [evens odds flat_map map].
      rewrite Ha, <- !app_assoc. reflexivity.
    + rewrite <- app_assoc. simpl.
      apply NoDup_remove_1 in Hdistinct. exact Hdistinct.
    + intros slot Hin. apply Hhosted. right. right. exact Hin.
Qed.

Lemma evens_In {A : Type} (l : list A) :
  (forall x, In x (evens l) -> In x l)
  /\ (forall a x, In x (evens (a :: l)) -> In x (a :: l)).
Proof.
  induction l as [|b l [IH1 IH2]].
  - split; [intros x []|]. intros a x Hin. exact Hin.
  - split; [intros x; apply IH2|].
    intros a x [<-|Hin]; [left; reflexivity|].
    right. right. apply IH1. exact Hin.
Qed.

Lemma reserve_reserved_slot (resource : Z) (name : string)
    (slots : list DesiredSlot) :
  (forall slot, In slot slots ->
                ideal_for today provider resource slot <> None) ->
  map reserved_slot
    (flat_map (reserve today provider resource name) slots)
  = slots.
Proof.
  induction slots as [|slot rest IH]; intros Hhosted; simpl;
    [reflexivity|].
  unfold reserve at 1.
  destruct (ideal_for today provider resource slot) as [ideal|] eqn:Hideal;
    [|exfalso; apply (Hhosted slot); [left; reflexivity|exact Hideal]].
  simpl. rewrite reserved_slot_reservation_for, IH; [reflexivity|].
  intros slot' Hin. apply Hhosted. right. exact Hin.
Qed.

(** X14.  With a single preferred resource type that can host every one of
    the distinct desired slots, the planner reserves only every other
    slot: removing a reserved slot from the list under iteration makes the
    loop step over the slot that follows it.  The slots at positions 0, 2,
    4, ... are queried and reserved, those at positions 1, 3, 5, ... are
    never queried and stay pending. *)
Theorem single_resource_reserves_every_other_slot
    (resourses : list ResourceType) (resourse_preference : list string)
    (slots : list DesiredSlot) (resource : Z) (name : string) :
  resolve_preferences resourses resourse_preference = [(resource, name)] ->
  NoDup slots ->
  (forall slot, In slot slots ->
                ideal_for today provider resource slot <> None) ->
  let out :=
    construct_reservations today provider resourses resourse_preference
      slots in
  map reserved_slot (reservations out) = evens slots
  /\ pending out = odds slots
  /\ queries out
     = map (fun slot => mkQuery resource (desired_date slot)) (evens slots).
Proof.
  intros Hresolved Hdistinct Hhosted out. subst out.
  unfold construct_reservations. rewrite Hresolved.
  cbn [iterate_resources].
  pose proof (proj1 (iterate_slots_alternates resource name slots)
                [] [] [] Hdistinct Hhosted) as Hpass.
  cbn [app List.length] in Hpass. rewrite Hpass.
  assert (Hreserved :
            map reserved_slot
              (flat_map (reserve today provider resource name)
                 (evens slots))
            = evens slots).
  { apply reserve_reserved_slot. intros slot Hin.
    apply Hhosted. apply (proj1 (evens_In slots)). exact Hin. }
  destruct (List.length (odds slots) =? 0)%nat; cbn;
    (split; [exact Hreserved|split; reflexivity]).
Qed.

(** A pass leaves the first slot of a list of distinct slots in its place
    when the resource type cannot host it, and loses no reservation. *)
Lemma iterate_slots_keeps_head (resource : Z) (name : string)
    (slot : DesiredSlot) (rest slots' : list DesiredSlot)
    (found found' : list Reservation) (asked asked' : list Query) :
  NoDup (slot :: rest) ->
  ideal_for today provider resource slot = None ->
  iterate_slots today provider resource name 0 (slot :: rest) found asked
  = (slots', found', asked') ->
  (exists rest', slots' = slot :: rest' /\ NoDup (slot :: rest'))
  /\ incl found found'.
Proof.
  intros Hdistinct Hnone Hrun.
  destruct (iterate_slots_pass today provider resource name
              (fun _ pending reserved _ =>
                 (exists rest', pending = slot :: rest'
                                /\ NoDup (slot :: rest'))
                 /\ incl found reserved)
              (slot :: rest) slots' found found' asked asked')
    as (_ & Hend); try assumption.
  - intros i pending reserved queried x ideal
      [(rest' & -> & Hnodup) Hincl] Hx Hideal.
    split; [|apply incl_appl; exact Hincl].
    destruct i as [|i].
    + injection Hx as <-. congruence.
    + cbn [nth_error] in Hx. apply nth_error_In in Hx.
      assert (Hne : slot <> x).
      { intros ->. apply NoDup_cons_iff in Hnodup. tauto. }
      cbn [list_remove]. rewrite (DesiredSlot_eqb_neq _ _ Hne).
      exists (list_remove x rest'). split; [reflexivity|].
      apply NoDup_cons_iff in Hnodup. destruct Hnodup as [Hnotin Hrest].
      constructor; [|apply list_remove_NoDup; exact Hrest].
      intros Hin. apply Hnotin. eapply list_remove_incl, Hin.
  - intros i pending reserved queried x HInv _ _. exact HInv.
  - split; [exists rest; split; [reflexivity|exact Hdistinct]|].
    apply incl_refl.
Qed.

(** A pass reserves the first slot of the list when the resource type can
    host it. *)
Lemma iterate_slots_reserves_head (resource : Z) (name : string)
    (slot : DesiredSlot) (rest slots' : list DesiredSlot)
    (ideal : Z * Interval)
    (found found' : list Reservation) (asked asked' : list Query) :
  ideal_for today provider resource slot = Some ideal ->
  iterate_slots today provider resource name 0 (slot :: rest) found asked
  = (slots', found', asked') ->
  In (reservation_for name slot ideal) found'.
Proof.
  intros Hideal Hrun.
  rewrite iterate_slots_step in Hrun. cbn [nth_error] in Hrun.
  rewrite Hideal in Hrun.
  destruct (iterate_slots_invariant today provider resource name
              (fun _ _ reserved _ =>
                 In (reservation_for name slot ideal) reserved))
    with (i := 1%nat) (slots := list_remove slot (slot :: rest))
         (found := found ++ [reservation_for name slot ideal])
         (asked := asked ++ [mkQuery resource (desired_date slot)])
    as (i' & s2 & f2 & a2 & Hrun2 & _ & Hend).
  - intros i pending reserved queried x ideal' Hin _ _.
    apply in_or_app. left. exact Hin.
  - intros i pending reserved queried x Hin _ _. exact Hin.
  - apply in_or_app. right. left. reflexivity.
  - rewrite Hrun in Hrun2. injection Hrun2 as <- <- <-. exact Hend.
Qed.

Lemma iterate_resources_keeps_found (resource_ids : list (Z * string)) :
  forall (slots slots' : list DesiredSlot)
         (found found' : list Reservation) (asked asked' : list Query),
    iterate_resources today provider resource_ids slots found asked
    = (slots', found', asked') ->
    incl found found'.
Proof.
  intros slots slots' found found' asked asked' Hrun.
  destruct (iterate_resources_invariant today provider
              (fun _ reserved _ => incl found reserved) resource_ids)
    with (slots := slots) (found := found) (asked := asked)
    as (s2 & f2 & a2 & Hrun2 & Hend).
  - intros resource name s f a s' f' a' _ Hincl Hpass.
    destruct (iterate_slots_pass today provider resource name
                (fun _ _ reserved _ => incl found reserved)
                s s' f f' a a') as (_ & Hend); try assumption.
    + intros i pending reserved queried x ideal HInv _ _.
      apply incl_appl. exact HInv.
    + intros i pending reserved queried x HInv _ _. exact HInv.
  - apply incl_refl.
  - rewrite Hrun in Hrun2. injection Hrun2 as <- <- <-. exact Hend.
Qed.

Lemma iterate_resources_head (before : list (Z * string)) :
  forall (resource : Z) (name : string) (after : list (Z * string))
         (slot : DesiredSlot) (rest slots' : list DesiredSlot)
         (ideal : Z * Interval)
         (found found' : list Reservation) (asked asked' : list Query),
    NoDup (slot :: rest) ->
    (forall r n, In (r, n) before ->
                 ideal_for today provider r slot = None) ->
    ideal_for today provider resource slot = Some ideal ->
    iterate_resources today provider (before ++ (resource, name) :: after)
      (slot :: rest) found asked
    = (slots', found', asked') ->
    In (reservation_for name slot ideal) found'.
Proof.
  induction before as [|[r n] before IH];
    intros resource name after slot rest slots' ideal found found'
      asked asked' Hdistinct Hnone Hideal; cbn [app iterate_resources].
  - destruct (iterate_slots today provider resource name 0 (slot :: rest)
                found asked) as [[s1 f1] a1] eqn:Hpass.
    apply (iterate_slots_reserves_head _ _ _ _ _ ideal) in Hpass;
      [|exact Hideal].
    destruct (List.length s1 =? 0)%nat.
    + intros [= <- <- <-]. exact Hpass.
    + intros Hrest. apply iterate_resources_keeps_found in Hrest.
      apply Hrest, Hpass.
  - destruct (iterate_slots today provider r n 0 (slot :: rest)
                found asked) as [[s1 f1] a1] eqn:Hpass.
    apply iterate_slots_keeps_head in Hpass;
      [|exact Hdistinct|apply (Hnone r n); left; reflexivity].
    destruct Hpass as [(rest' & -> & Hdistinct') _].
    cbn [List.length Nat.eqb].
    apply IH; try assumption.
    intros r' n' Hin. apply (Hnone r' n'). right. exact Hin.
Qed.

(** X15.  The first of the distinct desired slots is served by preference:
    it is reserved at the first preferred resource type, in preference
    order, that can host it. *)
Theorem first_slot_goes_to_first_offer (resourses : list ResourceType)
    (resourse_preference : list string) (slot : DesiredSlot)
    (rest : list DesiredSlot) (before after : list (Z * string))
    (resource : Z) (name : string) (ideal : Z * Interval) :
  NoDup (slot :: rest) ->
  resolve_preferences resourses resourse_preference
  = before ++ (resource, name) :: after ->
  (forall r n, In (r, n) before ->
               ideal_for today provider r slot = None) ->
  ideal_for today provider resource slot = Some ideal ->
  In (reservation_for name slot ideal)
    (reservations
       (construct_reservations today provider resourses
          resourse_preference (slot :: rest))).
Proof.
  intros Hdistinct Hresolved Hnone Hideal.
  unfold construct_reservations. rewrite Hresolved.
  destruct (iterate_resources today provider
              (before ++ (resource, name) :: after) (slot :: rest) [] [])
    as [[s' f'] a'] eqn:Hrun.
  cbn [reservations].
  eapply iterate_resources_head; eassumption.
Qed.

End PlannerOrder.

Lemma single_resource_reserves_every_other_slot_witness :
  let provider :=
    fun (_ : Z) (_ : date) =>
      [mkResource 101 "seat"
         (map (fun t => mkTimeState t "available")
            (half_hours (mktime 9 0) 11))] in
  let out :=
    construct_reservations 0 provider [mkResourceType "R1" 1]
      ["R1"%string]
      [mkDesiredSlot (mktime 9 0) 4 1; mkDesiredSlot (mktime 9 0) 4 2;
       mkDesiredSlot (mktime 9 0) 4 3] in
  map reserved_slot (reservations out)
  = [mkDesiredSlot (mktime 9 0) 4 1; mkDesiredSlot (mktime 9 0) 4 3]
  /\ pending out = [mkDesiredSlot (mktime 9 0) 4 2]
  /\ queries out = [mkQuery 1 1; mkQuery 1 3].
Proof.
  intros provider.
  apply (single_resource_reserves_every_other_slot 0 provider
           [mkResourceType "R1" 1] ["R1"%string]
           [mkDesiredSlot (mktime 9 0) 4 1; mkDesiredSlot (mktime 9 0) 4 2;
            mkDesiredSlot (mktime 9 0) 4 3] 1 "R1").
  - reflexivity.
  - repeat constructor; simpl; intuition discriminate.
  - intros slot [<-|[<-|[<-|[]]]]; vm_compute; discriminate.
Defined.

Lemma first_slot_goes_to_first_offer_witness :
  let provider :=
    fun (resource : Z) (_ : date) =>
      if resource =? 2
      then [mkResource 102 "seat"
              (map (fun t => mkTimeState t "available")
                 (half_hours (mktime 9 0) 11))]
      else [] in
  In (mkReservation 102 "R2" "seat" (mktime 9 0) 4 1)
    (reservations
       (construct_reservations 0 provider
          [mkResourceType "R1" 1; mkResourceType "R2" 2;
           mkResourceType "R3" 3]
          ["R1"%string; "R2"%string; "R3"%string]
          [mkDesiredSlot (mktime 9 0) 4 1;
           mkDesiredSlot (mktime 14 0) 4 1])).
Proof.
  intros provider.
  apply (first_slot_goes_to_first_offer 0 provider
           [mkResourceType "R1" 1; mkResourceType "R2" 2;
            mkResourceType "R3" 3]
           ["R1"%string; "R2"%string; "R3"%string]
           (mkDesiredSlot (mktime 9 0) 4 1)
           [mkDesiredSlot (mktime 14 0) 4 1]
           [(1, "R1"%string)] [(3, "R3"%string)] 2 "R2"
           (102, mkInterval (mktime 9 0) (mktime 14 0) 5 "seat")).
  - repeat constructor; simpl; intuition discriminate.
  - reflexivity.
  - intros r n [[= <- <-]|[]]. reflexivity.
  - reflexivity.
Defined.

(** ** Further properties of the Slot Generator *)

Lemma generate_slots_flat_map (now start_date end_date : date)
    (reservation_type : ReservationType) (slot_duration : Z) :
  generate_slots now start_date end_date reservation_type slot_duration
  = flat_map (emitted reservation_type slot_duration)
      (map (fun i => start_date + i)
         (range (Z.min end_date (now + 7) - start_date + 1))).
Proof.
  unfold generate_slots.
  replace (if end_date >? now + 7 then now + 7 else end_date)
    with (Z.min end_date (now + 7))
    by (destruct (Z.gtb_spec end_date (now + 7)); lia).
  rewrite fold_generate_day. reflexivity.
Qed.

Lemma flat_map_length_const {A B : Type} (f : A -> list B) (k : nat)
    (l : list A) :
  (forall x, List.length (f x) = k) ->
  List.length (flat_map f l) = (k * List.length l)%nat.
Proof.
  intros Hk. induction l as [|x l IH]; simpl; [lia|].
  rewrite length_app, Hk, IH. lia.
Qed.

(** X16.  The generator yields two slots a day under [FULL_DAY] and one a
    day otherwise, for the days from [start_date] through the earlier of
    [end_date] and seven days after [now]; so it yields nothing when
    [start_date] lies after that day, and at most 16 slots when
    [start_date] is not in the past. *)
Theorem generate_slots_count (now start_date end_date : date)
    (reservation_type : ReservationType) (slot_duration : Z) :
  List.length
    (generate_slots now start_date end_date reservation_type slot_duration)
  = (slots_per_day reservation_type
     * Z.to_nat (Z.min end_date (now + 7) - start_date + 1))%nat
  /\ (Z.min end_date (now + 7) < start_date ->
      generate_slots now start_date end_date reservation_type
        slot_duration
      = [])
  /\ (now <= start_date ->
      (List.length
         (generate_slots now start_date end_date reservation_type
            slot_duration)
       <= 16)%nat).
Proof.
  assert (Hcount :
            List.length
              (generate_slots now start_date end_date reservation_type
                 slot_duration)
            = (slots_per_day reservation_type
               * Z.to_nat (Z.min end_date (now + 7) - start_date + 1))%nat).
  { rewrite generate_slots_flat_map.
    rewrite (flat_map_length_const _ (slots_per_day reservation_type)).
    - unfold range. rewrite !length_map, length_seq. reflexivity.
    - intros day. destruct reservation_type; reflexivity. }
  split; [exact Hcount|]. split.
  - intros Hafter. apply length_zero_iff_nil. rewrite Hcount.
    replace (Z.to_nat (Z.min end_date (now + 7) - start_date + 1))
      with 0%nat by lia.
    lia.
  - intros Hfuture. rewrite Hcount.
    assert (Z.to_nat (Z.min end_date (now + 7) - start_date + 1) <= 8)%nat
      by lia.
    destruct reservation_type; simpl; lia.
Qed.

Lemma generate_slots_count_witness :
  generate_slots 100 109 130 FULL_DAY 4 = []
  /\ (List.length (generate_slots 100%Z 100%Z 130%Z FULL_DAY 4%Z)
      <= 16)%nat.
Proof.
  split.
  - apply (proj1 (proj2 (generate_slots_count 100 109 130 FULL_DAY 4))).
    reflexivity.
  - apply (proj2 (proj2 (generate_slots_count 100 100 130 FULL_DAY 4))).
    discriminate.
Defined.

Lemma generate_slots_sorted (now start_date end_date : date)
    (reservation_type : ReservationType) (slot_duration : Z) :
  StronglySorted earlier
    (generate_slots now start_date end_date reservation_type
       slot_duration).
Proof.
  rewrite generate_slots_flat_map.
  apply flat_map_emitted_sorted, seq_days_sorted.
Qed.

Lemma earlier_sorted_NoDup (l : list DesiredSlot) :
  StronglySorted earlier l -> NoDup l.
Proof.
  induction 1 as [|x l _ IH Hx]; constructor; [|exact IH].
  intros Hin. rewrite Forall_forall in Hx. specialize (Hx x Hin).
  unfold earlier in Hx. lia.
Qed.

(** X17.  The generator never asks for the same slot twice, so each slot
    it generates is claimed at most once by the planner: the slots of the
    reservations and the slots left pending are distinct. *)
Theorem generated_slots_claimed_once (today : date)
    (provider : Z -> date -> list Resource)
    (resourses : list ResourceType) (resourse_preference : list string)
    (now start_date end_date : date) (reservation_type : ReservationType)
    (slot_duration : Z) :
  let slots :=
    generate_slots now start_date end_date reservation_type
      slot_duration in
  let out :=
    construct_reservations today provider resourses resourse_preference
      slots in
  NoDup slots
  /\ NoDup (map reserved_slot (reservations out) ++ pending out).
Proof.
  intros slots out.
  assert (Hdistinct : NoDup slots)
    by apply earlier_sorted_NoDup, generate_slots_sorted.
  split; [exact Hdistinct|].
  apply (Permutation_NoDup
           (proj1 (construct_reservations_conserves today provider
                     resourses resourse_preference slots))).
  exact Hdistinct.
Qed.

(** ** The resource listing *)

Lemma get_resources_map (types : list TypeInfo) :
  get_resources types
  = map (fun resource =>
           {| type_name := localized_description resource;
              type_id := resource_type resource |})
      types.
Proof.
  unfold get_resources.
  assert (Hfold : forall acc,
            fold_left
              (fun resources_list resource =>
                 resources_list
                 ++ [{| type_name := localized_description resource;
                        type_id := resource_type resource |}])
              types acc
            = acc
              ++ map (fun resource =>
                        {| type_name := localized_description resource;
                           type_id := resource_type resource |})
                   types).
  { induction types as [|resource types IH]; intros acc; simpl.
    - rewrite app_nil_r. reflexivity.
    - rewrite IH, <- app_assoc. reflexivity. }
  apply Hfold.
Qed.

(** X18.  The resource types the planner tries are exactly the listed
    types whose description is a preferred name, under their listed id;
    a preferred name that the site does not list is dropped, and the
    types of an earlier preference all come before those of a later
    one. *)
Theorem resolve_preferences_listed (types : list TypeInfo)
    (resourse_preference : list string) :
  (forall id name,
     In (id, name)
       (resolve_preferences (get_resources types) resourse_preference)
     <-> In name resourse_preference /\ In (mkTypeInfo name id) types)
  /\ (forall first later,
        resourse_preference = first ++ later ->
        resolve_preferences (get_resources types) resourse_preference
        = resolve_preferences (get_resources types) first
          ++ resolve_preferences (get_resources types) later).
Proof.
  split.
  - intros id name. unfold resolve_preferences.
    rewrite get_resources_map, in_flat_map. split.
    + intros (pref & Hpref & Hin). apply in_flat_map in Hin.
      destruct Hin as (res & Hres & Hin).
      apply in_map_iff in Hres. destruct Hres as ([descr ty] & <- & Hty).
      simpl in Hin.
      destruct (String.eqb_spec descr pref) as [->|_]; [|contradiction].
      destruct Hin as [[= <- <-]|[]]. split; assumption.
    + intros [Hpref Hty]. exists name. split; [exact Hpref|].
      apply in_flat_map. exists (mkResourceType name id). split.
      * apply in_map_iff. exists (mkTypeInfo name id).
        split; [reflexivity|exact Hty].
      * simpl. rewrite String.eqb_refl. left. reflexivity.
  - intros first later ->. unfold resolve_preferences.
    apply flat_map_app.
Qed.

Lemma resolve_preferences_listed_witness :
  resolve_preferences
    (get_resources [mkTypeInfo "SALA PC" 7; mkTypeInfo "SALA LETTURA" 3])
    (["SALA LETTURA"%string] ++ ["BALLATOIO"%string; "SALA PC"%string])
  = [(3, "SALA LETTURA"%string)] ++ [(7, "SALA PC"%string)].
Proof.
  exact (proj2 (resolve_preferences_listed
                  [mkTypeInfo "SALA PC" 7; mkTypeInfo "SALA LETTURA" 3]
                  (["SALA LETTURA"%string]
                   ++ ["BALLATOIO"%string; "SALA PC"%string]))
           ["SALA LETTURA"%string]
           ["BALLATOIO"%string; "SALA PC"%string] eq_refl).
Defined.

(** ** The Reservation Submitter *)

Lemma posted_app (a b : list Event) : posted (a ++ b) = posted a ++ posted b.
Proof. apply flat_map_app. Qed.

Lemma slept_app (a b : list Event) : slept (a ++ b) = slept a + slept b.
Proof.
  induction a as [|event a IH]; simpl; [reflexivity|].
  rewrite IH. destruct event; lia.
Qed.

Section SubmitterFacts.

Variable post : nat -> Z -> Payload -> option Response.
Variable email : string.
Variables first_name last_name phone_number : option string.

Lemma submit_trace (reservations : list Reservation) :
  forall (n : nat) (events events' : list Event) (ending : Ending),
    submit post email first_name last_name phone_number n reservations
      events
    = (events', ending) ->
    exists done rest,
      reservations = done ++ rest
      /\ posted events'
         = posted events
           ++ map (request_of email first_name last_name phone_number) done
      /\ (ending = Returned ->
          rest = []
          /\ slept events' = slept events + 5 * Z.of_nat (List.length done)).
Proof.
  induction reservations as [|r rs IH]; intros n events events' ending;
    cbn [submit].
  - intros [= <- <-]. exists [], []. split; [reflexivity|].
    split; [simpl; rewrite app_nil_r; reflexivity|].
    intros _. split; [reflexivity|]. simpl. lia.
  - destruct (post n (reservation_resource_id r)
                (payload_of email first_name last_name phone_number r))
      as [response|].
    + assert (Hnext : forall more,
                submit post email first_name last_name phone_number (S n)
                  rs ((events
                       ++ [Posted (reservation_resource_id r)
                             (payload_of email first_name last_name
                                phone_number r)])
                      ++ more)
                = (events', ending) ->
                posted more = [] -> slept more = 5 ->
                exists done rest,
                  r :: rs = done ++ rest
                  /\ posted events'
                     = posted events
                       ++ map (request_of email first_name last_name
                                 phone_number) done
                  /\ (ending = Returned ->
                      rest = []
                      /\ slept events'
                         = slept events
                           + 5 * Z.of_nat (List.length done))).
      { intros more Hrun Hposted Hslept. apply IH in Hrun.
        destruct Hrun as (done & rest & -> & Hevents & Hend).
        exists (r :: done), rest. split; [reflexivity|]. split.
        - rewrite Hevents, !posted_app, Hposted, app_nil_r.
          simpl. rewrite <- app_assoc. reflexivity.
        - intros Hreturned. destruct (Hend Hreturned) as [-> Hsleep].
          split; [reflexivity|].
          rewrite Hsleep, !slept_app, Hslept. simpl List.length.
          simpl slept. lia. }
      destruct (status_code response =? 200).
      * intros Hrun. apply (Hnext [Slept 5]); auto.
      * destruct (json_body response) as [body|].
        -- intros Hrun. apply (Hnext [ErrorLogged body; Slept 5]); auto.
        -- intros [= <- <-]. exists [r], rs. split; [reflexivity|].
           split; [|discriminate]. rewrite posted_app. reflexivity.
    + intros [= <- <-]. exists [r], rs. split; [reflexivity|].
      split; [|discriminate]. rewrite posted_app. reflexivity.
Qed.


Lemma submit_returns (reservations : list Reservation) :
  (forall n resource payload,
     exists response,
       post n resource payload = Some response
       /\ (status_code response = 200 \/ json_body response <> None)) ->
  forall n events,
    snd (submit post email first_name last_name phone_number n
           reservations events)
    = Returned.
Proof.
  intros Hanswers.
  induction reservations as [|r rs IH]; intros n events; cbn [submit];
    [reflexivity|].
  destruct (Hanswers n (reservation_resource_id r)
              (payload_of email first_name last_name phone_number r))
    as (response & -> & Hok).
  destruct (Z.eqb_spec (status_code response) 200) as [_|Hfailed];
    [apply IH|].
  destruct (json_body response) as [body|]; [apply IH|].
  destruct Hok as [Hok|Hok]; contradiction.
Qed.

(** X20.  A refused reservation does not stop the others: when every call
    is answered, and every answer other than 200 carries a body that
    decodes as JSON, the run returns and has posted a request for every
    reservation. *)
Theorem make_reservations_continues (reservations : list Reservation) :
  (forall n resource payload,
     exists response,
       post n resource payload = Some response
       /\ (status_code response = 200 \/ json_body response <> None)) ->
  let run :=
    make_reservations post email first_name last_name phone_number
      reservations in
  snd run = Returned
  /\ posted (fst run)
     = map (request_of email first_name last_name phone_number)
         reservations.
Proof.
  intros Hanswers run.
  assert (Hreturned : snd run = Returned)
    by (apply submit_returns; exact Hanswers).
  split; [exact Hreturned|].
  subst run. unfold make_reservations in *.
  destruct (submit post email first_name last_name phone_number 0
              reservations []) as [events ending] eqn:Hrun.
  apply submit_trace in Hrun.
  destruct Hrun as (done & rest & -> & Hposted & Hend).
  cbn [fst snd] in *. destruct (Hend Hreturned) as [-> _].
  rewrite app_nil_r. exact Hposted.
Qed.

(** X21.  The payload carries the date and the start time of the
    reservation, and as end time the start time plus the duration taken
    modulo 24 hours: the end lies [duration] hours after the start when
    that is still the same day, and wraps to an earlier time of day, under
    the unchanged date, when the reservation runs past midnight. *)
Theorem payload_times (reservation : Reservation) :
  let payload :=
    payload_of email first_name last_name phone_number reservation in
  let finish :=
    reservation_start_time reservation
    + 60 * reservation_duration reservation in
  payload_date payload = reservation_date reservation
  /\ payload_start_time payload = reservation_start_time reservation
  /\ payload_end_time payload = finish mod 1440
  /\ (0 <= finish < 1440 -> payload_end_time payload = finish)
  /\ (1440 <= finish < 2880 -> payload_end_time payload = finish - 1440).
Proof.
  intros payload finish. subst payload finish.
  unfold payload_of, time_of, combine, hours_delta.
  cbn [payload_date payload_start_time payload_end_time].
  split; [reflexivity|]. split; [reflexivity|].
  assert (Hmod : (reservation_date reservation * 1440
                  + reservation_start_time reservation
                  + reservation_duration reservation * 60) mod 1440
                 = (reservation_start_time reservation
                    + 60 * reservation_duration reservation) mod 1440).
  { rewrite <- Z.add_assoc, Z.add_comm, Z.mod_add by lia.
    f_equal. lia. }
  rewrite Hmod. split; [reflexivity|]. split; intros Hrange.
  - apply Z.mod_small. exact Hrange.
  - symmetry. apply (Z.mod_unique _ _ 1); lia.
Qed.

End SubmitterFacts.

Lemma make_reservations_continues_witness :
  let post :=
    fun (n : nat) (_ : Z) (_ : Payload) =>
      Some (if (n =? 0)%nat
            then mkResponse 400 (Some "seat taken"%string)
            else mkResponse 200 None) in
  let run :=
    make_reservations post "me@example.org" None None None
      [mkReservation 101 "R1" "seat" (mktime 9 0) 4 1;
       mkReservation 102 "R2" "seat" (mktime 14 0) 4 1] in
  snd run = Returned
  /\ posted (fst run)
     = map (request_of "me@example.org" None None None)
         [mkReservation 101 "R1" "seat" (mktime 9 0) 4 1;
          mkReservation 102 "R2" "seat" (mktime 14 0) 4 1].
Proof.
  intros post.
  apply (make_reservations_continues post "me@example.org" None None None
           [mkReservation 101 "R1" "seat" (mktime 9 0) 4 1;
            mkReservation 102 "R2" "seat" (mktime 14 0) 4 1]).
  intros n resource payload. subst post. cbn beta.
  destruct (n =? 0)%nat; eexists; (split; [reflexivity|]).
  - right. discriminate.
  - left. reflexivity.
Defined.

Lemma payload_times_witness :
  payload_end_time
    (payload_of "me@example.org" None None None
       (mkReservation 101 "R1" "seat" (mktime 14 0) 4 1))
  = mktime 18 0
  /\ payload_end_time
       (payload_of "me@example.org" None None None
          (mkReservation 101 "R1" "seat" (mktime 22 0) 4 1))
     = mktime 2 0.
Proof.
  split.
  - apply (proj1 (proj2 (proj2 (proj2
      (payload_times "me@example.org" None None None
         (mkReservation 101 "R1" "seat" (mktime 14 0) 4 1)))))).
    vm_compute. split; [discriminate|reflexivity].
  - apply (proj2 (proj2 (proj2 (proj2
      (payload_times "me@example.org" None None None
         (mkReservation 101 "R1" "seat" (mktime 22 0) 4 1)))))).
    vm_compute. split; [discriminate|reflexivity].
Defined.

(** ** From generated slots to posted payloads *)

Lemma generate_slots_In (now start_date end_date : date)
    (reservation_type : ReservationType) (slot_duration : Z)
    (slot : DesiredSlot) :
  In slot
    (generate_slots now start_date end_date reservation_type slot_duration)
  -> desired_duration slot = slot_duration
     /\ (desired_start slot = mktime 9 0
         \/ desired_start slot = mktime 14 0)
     /\ start_date <= desired_date slot <= Z.min end_date (now + 7).
Proof.
  rewrite generate_slots_flat_map, in_flat_map.
  intros (day & Hday & Hslot).
  apply in_map_iff in Hday. destruct Hday as (i & <- & Hi).
  apply range_In in Hi.
  unfold emitted in Hslot.
  destruct reservation_type; simpl in Hslot;
    repeat destruct Hslot as [<-|Hslot]; try contradiction; simpl;
    (split; [reflexivity|]); (split; [auto|lia]).
Qed.

(** X22.  From generator to submitter: every reservation the planner makes
    for slots the generator produced, with a duration of 0 to 9 hours, is
    posted for a day from [start_date] through the earlier of [end_date]
    and seven days after [now], starting at 09:00 or 14:00 and ending
    exactly the duration later on the same day. *)
Theorem generated_reservations_payloads (today : date)
    (provider : Z -> date -> list Resource)
    (resourses : list ResourceType) (resourse_preference : list string)
    (now start_date end_date : date) (reservation_type : ReservationType)
    (slot_duration : Z) (email : string)
    (first_name last_name phone_number : option string) :
  0 <= slot_duration <= 9 ->
  Forall
    (fun reservation =>
       let payload :=
         payload_of email first_name last_name phone_number reservation in
       start_date <= payload_date payload <= Z.min end_date (now + 7)
       /\ (payload_start_time payload = mktime 9 0
           \/ payload_start_time payload = mktime 14 0)
       /\ payload_end_time payload
          = payload_start_time payload + 60 * slot_duration)
    (reservations
       (construct_reservations today provider resourses
          resourse_preference
          (generate_slots now start_date end_date reservation_type
             slot_duration))).
Proof.
  intros Hduration. rewrite Forall_forall. intros reservation Hin.
  assert (Hslot : In (reserved_slot reservation)
                    (generate_slots now start_date end_date
                       reservation_type slot_duration)).
  { eapply Permutation_in.
    - apply Permutation_sym.
      apply (proj1 (construct_reservations_conserves today provider
                      resourses resourse_preference _)).
    - apply in_or_app. left. apply in_map. exact Hin. }
  apply generate_slots_In in Hslot.
  destruct Hslot as (Hd & Hstart & Hdate).
  unfold reserved_slot in Hd, Hstart, Hdate. simpl in Hd, Hstart, Hdate.
  unfold payload_of, time_of, combine, hours_delta.
  cbn [payload_date payload_start_time payload_end_time].
  split; [exact Hdate|]. split; [exact Hstart|].
  rewrite Hd.
  replace (reservation_date reservation * 1440
           + reservation_start_time reservation + slot_duration * 60)
    with (reservation_start_time reservation + 60 * slot_duration
          + reservation_date reservation * 1440) by lia.
  rewrite Z.mod_add by lia. apply Z.mod_small.
  unfold mktime in Hstart. destruct Hstart as [-> | ->]; lia.
Qed.

Lemma generated_reservations_payloads_witness :
  Forall
    (fun reservation =>
       let payload :=
         payload_of "me@example.org" None None None reservation in
       100 <= payload_date payload <= Z.min 130 (100 + 7)
       /\ (payload_start_time payload = mktime 9 0
           \/ payload_start_time payload = mktime 14 0)
       /\ payload_end_time payload = payload_start_time payload + 60 * 4)
    (reservations
       (construct_reservations 0
          (fun _ _ =>
             [mkResource 101 "seat"
                (map (fun t => mkTimeState t "available")
                   (half_hours (mktime 9 0) 11))])
          [mkResourceType "R1" 1] ["R1"%string]
          (generate_slots 100 100 130 FULL_DAY 4))).
Proof.
  apply (generated_reservations_payloads 0
           (fun _ _ =>
              [mkResource 101 "seat"
                 (map (fun t => mkTimeState t "available")
                    (half_hours (mktime 9 0) 11))])
           [mkResourceType "R1" 1] ["R1"%string]
           100 100 130 FULL_DAY 4 "me@example.org" None None None).
  split; discriminate.
Defined.
